(** * Periscope: the options-chain probe [greeksTest.py]

    A shallow embedding of the snapshot client
    [get_options_chain_snapshot], the renderer [print_options_chain] and
    the driver under [if __name__ == "__main__"], together with the
    properties of them that the specification states.

    Python values are embedded as the JSON documents the program handles.
    Standard output is the list of the texts written by the successive
    [print] calls: one entry per call, the terminating newline left
    implicit.  Where a statement below speaks of a "line", it is one such
    entry.  Strings are sequences of one-byte characters; [str.upper] and
    [repr] are modelled on the ASCII range and leave other bytes alone. *)

From stdpp Require Import base strings gmap list pretty.
From Stdlib Require Import ZArith Lia Ascii.

Local Open Scope Z_scope.
Set Warnings "-register-all".

(** ** Python values *)

(** A float is kept as what this program observes of it: the text that
    [str] gives for it and whether it is non-zero (its truth value). The
    program does no arithmetic on floats. *)
Record pyfloat := PyFloat { float_str : string; float_nonzero : bool }.

(** The documents produced by [response.json()]: [None], [bool], [int],
    [float], [str], [list] and [dict] (keys in document order). *)
Inductive json :=
| JNull
| JBool (b : bool)
| JInt (n : Z)
| JFloat (f : pyfloat)
| JStr (s : string)
| JArr (items : list json)
| JObj (fields : list (string * json)).

(** What the program reads of a [requests.Response]. *)
Record http_response := HttpResponse {
  status_code : Z;
  reason : string;
  resp_url : string;
  text : string;
  (** the outcome of [response.json()]: the decode error message, or the
      parsed document *)
  parsed : string + json
}.

(** Exceptions, each with the text [str(e)] gives. [HTTPError] carries the
    response it was raised for. *)
Inductive exn :=
| HTTPError (msg : string) (response : http_response)
| RequestException (msg : string)
| JSONDecodeError (msg : string)
| AttributeError (msg : string)
| TypeError (msg : string).

Definition exn_str (e : exn) : string :=
  match e with
  | HTTPError msg _ => msg
  | RequestException msg => msg
  | JSONDecodeError msg => msg
  | AttributeError msg => msg
  | TypeError msg => msg
  end.

Inductive result (A : Type) :=
| Ok (a : A)
| Raise (e : exn).
Arguments Ok {A} a.
Arguments Raise {A} e.

(** ** Built-in operations of the Python runtime used by the program *)

(** [type(v).__name__] *)
Definition type_name (v : json) : string :=
  match v with
  | JNull => "NoneType"
  | JBool _ => "bool"
  | JInt _ => "int"
  | JFloat _ => "float"
  | JStr _ => "str"
  | JArr _ => "list"
  | JObj _ => "dict"
  end.

Definition no_attribute (v : json) (attr : string) : exn :=
  AttributeError ("'" +:+ type_name v +:+ "' object has no attribute '" +:+ attr +:+ "'").

(** First binding of a key in a dict. *)
Fixpoint dict_lookup (k : string) (d : list (string * json)) : option json :=
  match d with
  | [] => None
  | (k', v) :: d' => if String.eqb k k' then Some v else dict_lookup k d'
  end.

(** [obj.get(key, default)]: only a dict has the method. *)
Definition py_get (obj : json) (key : string) (dflt : json) : result json :=
  match obj with
  | JObj d => Ok (default dflt (dict_lookup key d))
  | _ => Raise (no_attribute obj "get")
  end.

(** [s * n] on strings. *)
Fixpoint str_mul (s : string) (n : nat) : string :=
  match n with
  | O => ""
  | S n' => s +:+ str_mul s n'
  end.

(** [sep.join(parts)] *)
Fixpoint str_join (sep : string) (parts : list string) : string :=
  match parts with
  | [] => ""
  | [p] => p
  | p :: ps => p +:+ sep +:+ str_join sep ps
  end.

Definition upper_ascii (c : ascii) : ascii :=
  let n := Ascii.nat_of_ascii c in
  if (Nat.leb 97 n && Nat.leb n 122)%bool then Ascii.ascii_of_nat (n - 32) else c.

(** [s.upper()] *)
Fixpoint upper (s : string) : string :=
  match s with
  | EmptyString => EmptyString
  | String c s' => String (upper_ascii c) (upper s')
  end.

(** [s.startswith(prefix)] *)
Fixpoint startswith (prefix s : string) : bool :=
  match prefix, s with
  | EmptyString, _ => true
  | String p prefix', String c s' => (Ascii.eqb p c && startswith prefix' s')%bool
  | String _ _, EmptyString => false
  end.

Fixpoint str_contains (c : ascii) (s : string) : bool :=
  match s with
  | EmptyString => false
  | String c' s' => (Ascii.eqb c c' || str_contains c s')%bool
  end.

Definition hex_digit (n : nat) : ascii :=
  Ascii.ascii_of_nat (if Nat.ltb n 10 then 48 + n else 87 + n).

Definition hex2 (c : ascii) : string :=
  let n := Ascii.nat_of_ascii c in
  String (hex_digit (n / 16)) (String (hex_digit (n mod 16)) EmptyString).

Definition backslash : ascii := Ascii.ascii_of_nat 92.
Definition dquote : ascii := Ascii.ascii_of_nat 34.
Definition squote : ascii := Ascii.ascii_of_nat 39.

(** A backslash followed by the text [s]. *)
Definition esc (s : string) : string := String backslash s.

(** The body of [repr(s)] for a [str], between the quotes [q]. *)
Fixpoint repr_chars (q : ascii) (s : string) : string :=
  match s with
  | EmptyString => EmptyString
  | String c s' =>
      let n := Ascii.nat_of_ascii c in
      (if Ascii.eqb c backslash then esc (String backslash EmptyString)
       else if Ascii.eqb c q then esc (String c EmptyString)
       else if Nat.eqb n 10 then esc "n"
       else if Nat.eqb n 13 then esc "r"
       else if Nat.eqb n 9 then esc "t"
       else if (Nat.ltb n 32 || Nat.eqb n 127)%bool then esc ("x" +:+ hex2 c)
       else String c EmptyString) +:+ repr_chars q s'
  end.

(** [repr(s)] for a [str]: single quotes, unless the text has a single
    quote and no double quote. *)
Definition repr_str (s : string) : string :=
  let q : ascii :=
    if (str_contains squote s && negb (str_contains dquote s))%bool
    then dquote else squote in
  String q (repr_chars q s) +:+ String q EmptyString.

Definition int_str (n : Z) : string := pretty n.

(** [repr(v)] *)
Fixpoint py_repr (v : json) : string :=
  match v with
  | JNull => "None"
  | JBool b => if b then "True" else "False"
  | JInt n => int_str n
  | JFloat f => float_str f
  | JStr s => repr_str s
  | JArr items => "[" +:+ str_join ", " (map py_repr items) +:+ "]"
  | JObj fields =>
      "{" +:+ str_join ", "
        (map (fun kv => repr_str (fst kv) +:+ ": " +:+ py_repr (snd kv)) fields)
      +:+ "}"
  end.

(** [str(v)], which is what an f-string field [{v}] writes. *)
Definition py_str (v : json) : string :=
  match v with
  | JStr s => s
  | _ => py_repr v
  end.

(** The truth value of [v], as [if v:] tests it. *)
Definition py_truthy (v : json) : bool :=
  match v with
  | JNull => false
  | JBool b => b
  | JInt n => negb (Z.eqb n 0)
  | JFloat f => float_nonzero f
  | JStr s => negb (String.eqb s "")
  | JArr items => match items with [] => false | _ => true end
  | JObj fields => match fields with [] => false | _ => true end
  end.

(** [len(v)] *)
Definition py_len (v : json) : result nat :=
  match v with
  | JStr s => Ok (String.length s)
  | JArr items => Ok (length items)
  | JObj fields => Ok (length fields)
  | _ => Raise (TypeError ("object of type '" +:+ type_name v +:+ "' has no len()"))
  end.

Fixpoint str_chars (s : string) : list json :=
  match s with
  | EmptyString => []
  | String c s' => JStr (String c EmptyString) :: str_chars s'
  end.

(** The values [for x in v] goes through: the items of a list, the
    characters of a str, the keys of a dict. *)
Definition py_iter (v : json) : result (list json) :=
  match v with
  | JStr s => Ok (str_chars s)
  | JArr items => Ok items
  | JObj fields => Ok (map (fun kv => JStr (fst kv)) fields)
  | _ => Raise (TypeError ("'" +:+ type_name v +:+ "' object is not iterable"))
  end.

(** [v.upper()]: only a str has the method. *)
Definition py_upper (v : json) : result string :=
  match v with
  | JStr s => Ok (upper s)
  | _ => Raise (no_attribute v "upper")
  end.

(** The body of a JSON string literal as [json.dumps] writes it. *)
Fixpoint json_chars (s : string) : string :=
  match s with
  | EmptyString => EmptyString
  | String c s' =>
      let n := Ascii.nat_of_ascii c in
      (if Ascii.eqb c backslash then esc (String backslash EmptyString)
       else if Ascii.eqb c dquote then esc (String dquote EmptyString)
       else if Nat.eqb n 10 then esc "n"
       else if Nat.eqb n 13 then esc "r"
       else if Nat.eqb n 9 then esc "t"
       else if Nat.eqb n 8 then esc "b"
       else if Nat.eqb n 12 then esc "f"
       else if (Nat.ltb n 32 || Nat.eqb n 127)%bool then esc ("u00" +:+ hex2 c)
       else String c EmptyString) +:+ json_chars s'
  end.

Definition json_string (s : string) : string :=
  String dquote (json_chars s) +:+ String dquote EmptyString.

Definition newline : string := String (Ascii.ascii_of_nat 10) EmptyString.

(** [json.dumps(v, indent=indent)], at nesting depth [level]. The text of
    a float is the one [float_str] keeps. *)
Fixpoint dumps_at (indent level : nat) (v : json) : string :=
  let pad := newline +:+ str_mul " " (indent * S level) in
  match v with
  | JNull => "null"
  | JBool b => if b then "true" else "false"
  | JInt n => int_str n
  | JFloat f => float_str f
  | JStr s => json_string s
  | JArr [] => "[]"
  | JArr items =>
      "[" +:+ pad
      +:+ str_join ("," +:+ pad) (map (dumps_at indent (S level)) items)
      +:+ newline +:+ str_mul " " (indent * level) +:+ "]"
  | JObj [] => "{}"
  | JObj fields =>
      "{" +:+ pad
      +:+ str_join ("," +:+ pad)
            (map (fun kv => json_string (fst kv) +:+ ": "
                            +:+ dumps_at indent (S level) (snd kv)) fields)
      +:+ newline +:+ str_mul " " (indent * level) +:+ "}"
  end.

Definition json_dumps (v : json) (indent : nat) : string := dumps_at indent 0 v.

(** ** The world the program runs in *)

(** A call [requests.get(url, params=params)]. *)
Record http_request := HttpRequest {
  req_url : string;
  req_params : gmap string json
}.

(** The module globals [API_KEY] and [BASE_URL] (what [os.getenv] gave at
    import: [None] for an unset variable), the upstream service as the
    answer [requests.get] gets for each request (a transport failure with
    its message, or a response), the requests issued so far and the texts
    printed so far. *)
Record world := World {
  API_KEY : option string;
  BASE_URL : option string;
  upstream : http_request -> string + http_response;
  sent : list http_request;
  stdout : list string
}.

(** A global read as a value, and as an f-string field. *)
Definition env_val (o : option string) : json :=
  match o with
  | Some s => JStr s
  | None => JNull
  end.

Definition env_str (o : option string) : string := py_str (env_val o).

(** ** Computations: state passing with exceptions *)

Definition M (A : Type) : Type := world -> result A * world.

Definition ret {A} (a : A) : M A := fun w => (Ok a, w).

Definition raise {A} (e : exn) : M A := fun w => (Raise e, w).

Definition bind {A B} (m : M A) (f : A -> M B) : M B :=
  fun w =>
    match m w with
    | (Ok a, w') => f a w'
    | (Raise e, w') => (Raise e, w')
    end.

Declare Scope py_scope.
Delimit Scope py_scope with py.
Notation "'let*' x ':=' m 'in' k" := (bind m (fun x => k))
  (at level 10, x name, m at level 100, k at level 200, only parsing) : py_scope.
Notation "m '>>' k" := (bind m (fun _ => k))
  (at level 100, k at level 200, right associativity, only parsing) : py_scope.
Local Open Scope py_scope.

(** The outcome of a built-in, as a computation. *)
Definition lift {A} (r : result A) : M A := fun w => (r, w).

(** The text [out] appended to standard output. *)
Definition emit (out : list string) (w : world) : world :=
  {| API_KEY := API_KEY w; BASE_URL := BASE_URL w; upstream := upstream w;
     sent := sent w; stdout := stdout w ++ out |}.

(** [print(s)] *)
Definition print (s : string) : M unit := fun w => (Ok tt, emit [s] w).

(** [for x in items: body(x)] *)
Fixpoint for_each {A} (items : list A) (body : A -> M unit) : M unit :=
  match items with
  | [] => ret tt
  | x :: items' => body x >> for_each items' body
  end.

(** [try: m  except ... as e: handler(e)] *)
Definition try_except {A} (m : M A) (handler : exn -> M A) : M A :=
  fun w =>
    match m w with
    | (Ok a, w') => (Ok a, w')
    | (Raise e, w') => handler e w'
    end.

(** ** The [requests] calls the client makes *)

(** [requests.get(url, params=params)]: the request is recorded as issued,
    and the upstream's answer comes back. *)
Definition requests_get (url : string) (params : gmap string json) : M http_response :=
  fun w =>
    let req := {| req_url := url; req_params := params |} in
    let w' := {| API_KEY := API_KEY w; BASE_URL := BASE_URL w; upstream := upstream w;
                 sent := sent w ++ [req]; stdout := stdout w |} in
    match upstream w req with
    | inl msg => (Raise (RequestException msg), w')
    | inr response => (Ok response, w')
    end.

(** The message [Response.raise_for_status] builds: empty unless the
    status is a client error (400 to 499) or a server error (500 to 599). *)
Definition http_error_msg (response : http_response) : string :=
  let s := status_code response in
  if (Z.leb 400 s && Z.ltb s 500)%bool then
    int_str s +:+ " Client Error: " +:+ reason response +:+ " for url: " +:+ resp_url response
  else if (Z.leb 500 s && Z.ltb s 600)%bool then
    int_str s +:+ " Server Error: " +:+ reason response +:+ " for url: " +:+ resp_url response
  else "".

(** [response.raise_for_status()]: raises when there is a message. *)
Definition raise_for_status (response : http_response) : M unit :=
  let http_error_msg := http_error_msg response in
  if py_truthy (JStr http_error_msg)
  then raise (HTTPError http_error_msg response)
  else ret tt.

(** [response.json()] *)
Definition response_json (response : http_response) : M json :=
  match parsed response with
  | inl msg => raise (JSONDecodeError msg)
  | inr document => ret document
  end.

(** [params.update(kwargs)]: the bindings of [kwargs] are set in [params],
    replacing those already there. *)
Definition dict_update (params kwargs : gmap string json) : gmap string json :=
  kwargs ∪ params.

(** ** The program *)

Definition get_options_chain_snapshot
    (underlying_ticker : string) (kwargs : gmap string json) : M json :=
  fun w =>
    (let url := env_str (BASE_URL w) +:+ "/snapshot/options/" +:+ underlying_ticker in
     let params : gmap string json := {[ "apiKey" := env_val (API_KEY w) ]} in
     let params := dict_update params kwargs in
     let* response := requests_get url params in
     raise_for_status response >>
     response_json response) w.

Definition NA : json := JStr "N/A".

(** The body of the loop [for option in results] of
    [print_options_chain]. *)
Definition print_options_chain_body (option : json) : M unit :=
  let* details := lift (py_get option "details" (JObj [])) in
  let* greeks := lift (py_get option "greeks" (JObj [])) in
  let* last_quote := lift (py_get option "last_quote" (JObj [])) in
  let* last_trade := lift (py_get option "last_trade" (JObj [])) in
  let* ticker := lift (py_get details "ticker" NA) in
  print ("Contract: " +:+ py_str ticker) >>
  let* contract_type := lift (py_get details "contract_type" NA) in
  let* contract_type := lift (py_upper contract_type) in
  print ("  Type: " +:+ contract_type) >>
  let* strike_price := lift (py_get details "strike_price" NA) in
  print ("  Strike: $" +:+ py_str strike_price) >>
  let* expiration_date := lift (py_get details "expiration_date" NA) in
  print ("  Expiration: " +:+ py_str expiration_date) >>
  let* exercise_style := lift (py_get details "exercise_style" NA) in
  print ("  Exercise Style: " +:+ py_str exercise_style) >>
  print "  Greeks:" >>
  let* delta := lift (py_get greeks "delta" NA) in
  print ("    Delta: " +:+ py_str delta) >>
  let* gamma := lift (py_get greeks "gamma" NA) in
  print ("    Gamma: " +:+ py_str gamma) >>
  let* theta := lift (py_get greeks "theta" NA) in
  print ("    Theta: " +:+ py_str theta) >>
  let* vega := lift (py_get greeks "vega" NA) in
  print ("    Vega:  " +:+ py_str vega) >>
  let* implied_volatility := lift (py_get option "implied_volatility" NA) in
  print ("  Implied Volatility: " +:+ py_str implied_volatility) >>
  let* open_interest := lift (py_get option "open_interest" NA) in
  print ("  Open Interest: " +:+ py_str open_interest) >>
  (if py_truthy last_quote then
     let* bid := lift (py_get last_quote "bid" NA) in
     let* ask := lift (py_get last_quote "ask" NA) in
     print ("  Last Quote: Bid $" +:+ py_str bid +:+ " / Ask $" +:+ py_str ask)
   else ret tt) >>
  (if py_truthy last_trade then
     let* price := lift (py_get last_trade "price" NA) in
     let* size := lift (py_get last_trade "size" NA) in
     print ("  Last Trade: $" +:+ py_str price +:+ " (" +:+ py_str size +:+ " contracts)")
   else ret tt) >>
  print "".

Definition print_options_chain (data : json) : M unit :=
  let* status := lift (py_get data "status" JNull) in
  print ("Status: " +:+ py_str status) >>
  let* request_id := lift (py_get data "request_id" JNull) in
  print ("Request ID: " +:+ py_str request_id) >>
  print (str_mul "-" 80) >>
  let* results := lift (py_get data "results" (JArr [])) in
  let* n := lift (py_len results) in
  print ("Total contracts returned: " +:+ int_str (Z.of_nat n) +:+ newline) >>
  let* options := lift (py_iter results) in
  for_each options print_options_chain_body.

(** The statements under [if __name__ == "__main__":]. *)
Definition main : M unit :=
  let ticker := "AAPL" in
  print ("Fetching options chain snapshot for " +:+ ticker +:+ "...") >>
  print (str_mul "=" 80) >>
  try_except
    (let* data := get_options_chain_snapshot ticker {[ "limit" := JInt 10 ]} in
     print_options_chain data >>
     print (str_mul "=" 80) >>
     print "Raw JSON Response:" >>
     print (str_mul "=" 80) >>
     print (json_dumps data 2))
    (fun e =>
       match e with
       | HTTPError _ response =>
           print ("HTTP Error: " +:+ exn_str e) >>
           print ("Response: " +:+ text response)
       | _ => print ("Error: " +:+ exn_str e)
       end).

(** * Notions the statements are about *)

(** ** Output and outcome of a computation *)

(** [writes m out r]: from every world, [m] prints exactly [out], changes
    nothing else and ends with outcome [r]. *)
Definition writes {A} (m : M A) (out : list string) (r : result A) : Prop :=
  forall w, m w = (r, emit out w).

(** [m] has an output and an outcome that no world influences. *)
Definition output_only {A} (m : M A) : Prop :=
  exists out r, writes m out r.

(** Number of printed lines that start with [prefix]. *)
(** The texts [m] prints from world [w]. *)
Definition printed {A} (m : M A) (w : world) : list string :=
  drop (length (stdout w)) (stdout (m w).2).

Definition count_lines (prefix : string) (out : list string) : nat :=
  length (List.filter (startswith prefix) out).

(** [m] ends by raising. *)
Definition aborts {A} (m : M A) : Prop :=
  exists out e, writes m out (Raise e).

(** [m] prints [pre] first, whatever follows. *)
Definition prints_first {A} (pre : list string) (m : M A) : Prop :=
  exists rest r, writes m (pre ++ rest) r.

(** Some printed line starts with [prefix]. *)
Definition has_line (prefix : string) (out : list string) : bool :=
  existsb (startswith prefix) out.

(** ** The response documents of the data model (section 3) *)

(** The fields of the sub-mapping [sub] of a contract; none when the
    sub-mapping is absent. *)
Definition sub_fields (contract : list (string * json)) (sub : string)
    : list (string * json) :=
  match dict_lookup sub contract with
  | Some (JObj d) => d
  | _ => []
  end.

Definition sub_field (contract : list (string * json)) (sub key : string)
    : option json :=
  dict_lookup key (sub_fields contract sub).

(** Absent, or a mapping. *)
Definition opt_mapping (o : option json) : bool :=
  match o with
  | None | Some (JObj _) => true
  | Some _ => false
  end.

(** Absent, or a string. *)
Definition opt_string (o : option json) : bool :=
  match o with
  | None | Some (JStr _) => true
  | Some _ => false
  end.

(** A Contract: a mapping whose [details], [greeks], [last_quote] and
    [last_trade], where present, are mappings, and whose contract type,
    where present, is a string. Any field may be absent. *)
Definition is_contract (v : json) : bool :=
  match v with
  | JObj c =>
      opt_mapping (dict_lookup "details" c)
      && opt_mapping (dict_lookup "greeks" c)
      && opt_mapping (dict_lookup "last_quote" c)
      && opt_mapping (dict_lookup "last_trade" c)
      && opt_string (sub_field c "details" "contract_type")
  | _ => false
  end.

(** The sequence [results] of a response; empty when the key is absent. *)
Definition results_of (d : list (string * json)) : list json :=
  match dict_lookup "results" d with
  | Some (JArr cs) => cs
  | _ => []
  end.

(** A SnapshotResponse: a mapping whose [results], where present, is a
    sequence of Contracts. *)
Definition is_response (v : json) : bool :=
  match v with
  | JObj d =>
      match dict_lookup "results" d with
      | None => true
      | Some (JArr cs) => forallb is_contract cs
      | Some _ => false
      end
  | _ => false
  end.

(** ** The layout of section 4.3, to compare the renderer with *)

(** A field as rendered: its value as received, or the sentinel. *)
Definition shown (o : option json) : string :=
  match o with
  | Some v => py_str v
  | None => "N/A"
  end.

(** The contract type as rendered: uppercased, or the sentinel. *)
Definition shown_upper (o : option json) : string :=
  match o with
  | Some (JStr s) => upper s
  | _ => "N/A"
  end.

(** The twelve lines every block has. *)
Definition fixed_lines (c : list (string * json)) : list string :=
  [ "Contract: " +:+ shown (sub_field c "details" "ticker");
    "  Type: " +:+ shown_upper (sub_field c "details" "contract_type");
    "  Strike: $" +:+ shown (sub_field c "details" "strike_price");
    "  Expiration: " +:+ shown (sub_field c "details" "expiration_date");
    "  Exercise Style: " +:+ shown (sub_field c "details" "exercise_style");
    "  Greeks:";
    "    Delta: " +:+ shown (sub_field c "greeks" "delta");
    "    Gamma: " +:+ shown (sub_field c "greeks" "gamma");
    "    Theta: " +:+ shown (sub_field c "greeks" "theta");
    "    Vega:  " +:+ shown (sub_field c "greeks" "vega");
    "  Implied Volatility: " +:+ shown (dict_lookup "implied_volatility" c);
    "  Open Interest: " +:+ shown (dict_lookup "open_interest" c) ].

Definition quote_lines (c : list (string * json)) : list string :=
  match sub_fields c "last_quote" with
  | [] => []
  | q => [ "  Last Quote: Bid $" +:+ shown (dict_lookup "bid" q)
           +:+ " / Ask $" +:+ shown (dict_lookup "ask" q) ]
  end.

Definition trade_lines (c : list (string * json)) : list string :=
  match sub_fields c "last_trade" with
  | [] => []
  | t => [ "  Last Trade: $" +:+ shown (dict_lookup "price" t)
           +:+ " (" +:+ shown (dict_lookup "size" t) +:+ " contracts)" ]
  end.

Definition block_lines (v : json) : list string :=
  match v with
  | JObj c => fixed_lines c ++ quote_lines c ++ trade_lines c ++ [""]
  | _ => []
  end.

Definition header_lines (d : list (string * json)) : list string :=
  [ "Status: " +:+ py_str (default JNull (dict_lookup "status" d));
    "Request ID: " +:+ py_str (default JNull (dict_lookup "request_id" d));
    str_mul "-" 80;
    "Total contracts returned: " +:+ int_str (Z.of_nat (length (results_of d))) +:+ newline ].

(** ** The client and the driver *)

(** The request [get_options_chain_snapshot] builds in world [w]. *)
Definition snapshot_request (w : world) (underlying_ticker : string)
    (kwargs : gmap string json) : http_request :=
  {| req_url := env_str (BASE_URL w) +:+ "/snapshot/options/" +:+ underlying_ticker;
     req_params := dict_update {[ "apiKey" := env_val (API_KEY w) ]} kwargs |}.

(** The world after [req] was issued. *)
Definition issue (req : http_request) (w : world) : world :=
  {| API_KEY := API_KEY w; BASE_URL := BASE_URL w; upstream := upstream w;
     sent := sent w ++ [req]; stdout := stdout w |}.

(** The statuses [raise_for_status] raises for. *)
Definition is_error_status (s : Z) : bool := Z.leb 400 s && Z.ltb s 600.

Definition banner : list string :=
  [ "Fetching options chain snapshot for AAPL..."; str_mul "=" 80 ].

(** ** Example worlds and documents *)

Definition example_url : string := "https://api.example/snapshot/options/AAPL".

(** An upstream that answers every request with [r]; the key is [KEY] and
    the base URL [https://api.example]. *)
Definition example_world (r : http_response) : world :=
  {| API_KEY := Some "KEY"; BASE_URL := Some "https://api.example";
     upstream := fun _ => inr r; sent := []; stdout := [] |}.

(** A 200 answer with document [doc]. *)
Definition ok_response (doc : json) : http_response :=
  {| status_code := 200; reason := "OK"; resp_url := example_url;
     text := json_dumps doc 0; parsed := inr doc |}.

(** Scenario S4: a 401 answer with a JSON error body. *)
Definition bad_key_body : json := JObj [("error", JStr "bad key")].

Definition unauthorized : http_response :=
  {| status_code := 401; reason := "Unauthorized"; resp_url := example_url;
     text := json_dumps bad_key_body 0; parsed := inr bad_key_body |}.

(** An answer with the status 600, which is outside the classes of HTTP
    but which the transport hands over as it is. *)
Definition status_600 : http_response :=
  {| status_code := 600; reason := ""; resp_url := example_url;
     text := json_dumps bad_key_body 0; parsed := inr bad_key_body |}.

(** Scenario S3: no contracts. *)
Definition empty_results : json :=
  JObj [("status", JStr "OK"); ("request_id", JStr "x"); ("results", JArr [])].

Definition limit_10 : gmap string json := {[ "limit" := JInt 10 ]}.

(** A caller that passes its own [apiKey] filter. *)
Definition own_key : gmap string json := {[ "apiKey" := JStr "OTHER" ]}.

(** A non-zero float written [s]. *)
Definition float_of (s : string) : json := JFloat (PyFloat s true).

(** Scenario S1: one call with every field. *)
Definition full_call : list (string * json) :=
  [("details", JObj [("ticker", JStr "O:AAPL250117C00150000");
                     ("contract_type", JStr "call");
                     ("strike_price", JInt 150);
                     ("expiration_date", JStr "2025-01-17");
                     ("exercise_style", JStr "american")]);
   ("greeks", JObj [("delta", float_of "0.5"); ("gamma", float_of "0.02");
                    ("theta", float_of "-0.03"); ("vega", float_of "0.1")]);
   ("implied_volatility", float_of "0.25");
   ("open_interest", JInt 1234);
   ("last_quote", JObj [("bid", float_of "5.1"); ("ask", float_of "5.3")]);
   ("last_trade", JObj [("price", float_of "5.2"); ("size", JInt 10)])].

(** Scenario S2 and S6: a put without [greeks], [last_quote] and
    [last_trade]. *)
Definition bare_put : list (string * json) :=
  [("details", JObj [("ticker", JStr "O:AAPL250117P00150000");
                     ("contract_type", JStr "put")])].

(** A contract whose [last_quote] is present and empty. *)
Definition empty_quote : list (string * json) :=
  [("last_quote", JObj []); ("last_trade", JObj [("price", JInt 5)])].

(** A contract whose type is [null]. *)
Definition null_type : list (string * json) :=
  [("details", JObj [("contract_type", JNull)])].

Definition response_of (contracts : list json) : list (string * json) :=
  [("status", JStr "OK"); ("request_id", JStr "abc"); ("results", JArr contracts)].

(** ** Where the renderer completes *)

(** [m] ends without raising. *)
Definition completes {A} (m : M A) : Prop :=
  exists out a, writes m out (Ok a).

(** What [if last_quote:] and the lookups under it accept: an absent key,
    a mapping, or any value that is false. *)
Definition quote_ok (o : option json) : bool :=
  match o with
  | None | Some (JObj _) => true
  | Some v => negb (py_truthy v)
  end.

(** The contracts whose block the loop body prints to its end. *)
Definition block_total (v : json) : bool :=
  match v with
  | JObj c =>
      opt_mapping (dict_lookup "details" c)
      && opt_string (sub_field c "details" "contract_type")
      && opt_mapping (dict_lookup "greeks" c)
      && quote_ok (dict_lookup "last_quote" c)
      && quote_ok (dict_lookup "last_trade" c)
  | _ => false
  end.

(** The documents [print_options_chain] renders to the end. *)
Definition render_total (data : json) : bool :=
  match data with
  | JObj d =>
      match py_iter (default (JArr []) (dict_lookup "results" d)) with
      | Ok options => forallb block_total options
      | Raise _ => false
      end
  | _ => false
  end.

(** The labels of the twelve fixed lines but [Greeks:]. *)
Definition fixed_labels : list string :=
  [ "Contract:"; "  Type:"; "  Strike:"; "  Expiration:"; "  Exercise Style:";
    "    Delta:"; "    Gamma:"; "    Theta:"; "    Vega:";
    "  Implied Volatility:"; "  Open Interest:" ].

(** The keys the loop body looks up in a contract. *)
Definition contract_keys : list string :=
  [ "details"; "greeks"; "last_quote"; "last_trade";
    "implied_volatility"; "open_interest" ].

(** [AttributeError] or [TypeError]. *)
Definition attr_or_type (e : exn) : bool :=
  match e with
  | AttributeError _ | TypeError _ => true
  | _ => false
  end.

(** Whether [len] and [for] accept the value. *)
Definition sized (v : json) : bool :=
  match v with
  | JStr _ | JArr _ | JObj _ => true
  | _ => false
  end.

(** The lines the driver's handlers print for an exception. *)
Definition report (e : exn) : list string :=
  match e with
  | HTTPError _ response =>
      [ "HTTP Error: " +:+ exn_str e; "Response: " +:+ text response ]
  | _ => [ "Error: " +:+ exn_str e ]
  end.

(** The lines the driver prints after a render that completed. *)
Definition raw_section (data : json) : list string :=
  [ str_mul "=" 80; "Raw JSON Response:"; str_mul "=" 80; json_dumps data 2 ].

(** A contract whose [last_quote] is [null] and whose [last_trade] is 0. *)
Definition null_quote : list (string * json) :=
  [("last_quote", JNull); ("last_trade", JInt 0); ("open_interest", JInt 7)].

(** A contract whose [greeks] are a list. *)
Definition list_greeks : list (string * json) :=
  [("greeks", JArr [JInt 1])].

(** [bare_put] with a field the renderer does not know, in front. *)
Definition bare_put_extra : list (string * json) :=
  ("day", JObj [("volume", JInt 3)]) :: bare_put.

(** [full_call] with its fields in the reverse order. *)
Definition full_call_reversed : list (string * json) := rev full_call.

(** An upstream out of reach. *)
Definition offline_world : world :=
  {| API_KEY := Some "KEY"; BASE_URL := Some "https://api.example";
     upstream := fun _ => inl "Connection refused"; sent := []; stdout := [] |}.

(** No key and no base URL in the environment. *)
Definition unconfigured_world : world :=
  {| API_KEY := None; BASE_URL := None;
     upstream := fun _ => inl "Invalid URL"; sent := []; stdout := [] |}.

(** A 200 answer whose body does not parse. *)
Definition garbled : http_response :=
  {| status_code := 200; reason := "OK"; resp_url := example_url;
     text := "<html>"; parsed := inl "Expecting value: line 1 column 1 (char 0)" |}.


(** * Reasoning about computations *)

Section Writes.

Lemma emit_nil w : emit [] w = w.
Proof. destruct w; unfold emit; simpl. by rewrite app_nil_r. Qed.

Lemma emit_emit o1 o2 w : emit o2 (emit o1 w) = emit (o1 ++ o2) w.
Proof. unfold emit; simpl. by rewrite app_assoc. Qed.

Lemma emit_inj o1 o2 w : emit o1 w = emit o2 w -> o1 = o2.
Proof.
  unfold emit; intros H.
  assert (stdout w ++ o1 = stdout w ++ o2) as E by (by inversion H).
  by apply app_inv_head in E.
Qed.

Context {A B : Type}.

Lemma writes_ret (a : A) : writes (ret a) [] (Ok a).
Proof. intros w. unfold ret. by rewrite emit_nil. Qed.

Lemma writes_lift (r : result A) : writes (lift r) [] r.
Proof. intros w. unfold lift. by rewrite emit_nil. Qed.

Lemma writes_print (s : string) : writes (print s) [s] (Ok tt).
Proof. by intros w. Qed.

Lemma writes_bind_ok (m : M A) (f : A -> M B) o1 a o2 r :
  writes m o1 (Ok a) -> writes (f a) o2 r -> writes (bind m f) (o1 ++ o2) r.
Proof.
  intros Hm Hf w. unfold bind. rewrite Hm, Hf. by rewrite emit_emit.
Qed.

Lemma writes_bind_raise (m : M A) (f : A -> M B) o1 e :
  writes m o1 (Raise e) -> writes (bind m f) o1 (Raise e).
Proof. intros Hm w. unfold bind. by rewrite Hm. Qed.

Lemma writes_bind_lift_ok (r : result A) (f : A -> M B) a o res :
  r = Ok a -> writes (f a) o res -> writes (bind (lift r) f) o res.
Proof. intros -> Hf. apply (writes_bind_ok _ _ [] a o res); [apply writes_lift | done]. Qed.

Lemma writes_bind_lift_raise (r : result A) (f : A -> M B) e :
  r = Raise e -> writes (bind (lift r) f) [] (Raise e).
Proof. intros ->. apply writes_bind_raise, writes_lift. Qed.

Lemma writes_fun (m : M A) o o' r r' :
  writes m o r -> writes m o' r' -> o = o' /\ r = r'.
Proof.
  intros H H'.
  pose (w0 := World None None (fun _ => inl "") [] []).
  specialize (H w0). specialize (H' w0). rewrite H in H'.
  assert (r = r') as Hr by congruence.
  assert (emit o w0 = emit o' w0) as Hw by congruence.
  split; [|done]. by apply emit_inj in Hw.
Qed.

Lemma output_only_bind (m : M A) (f : A -> M B) :
  output_only m -> (forall a, output_only (f a)) -> output_only (bind m f).
Proof.
  intros (o1 & [a|e] & Hm) Hf.
  - destruct (Hf a) as (o2 & r & Hfa).
    exists (o1 ++ o2), r. by eapply writes_bind_ok.
  - exists o1, (Raise e). by apply writes_bind_raise.
Qed.

Lemma output_only_lift (r : result A) : output_only (lift r).
Proof. exists [], r. apply writes_lift. Qed.

Lemma output_only_ret (a : A) : output_only (ret a).
Proof. exists [], (Ok a). apply writes_ret. Qed.

Lemma output_only_if (b : bool) (m1 m2 : M A) :
  output_only m1 -> output_only m2 -> output_only (if b then m1 else m2).
Proof. by destruct b. Qed.

End Writes.

Lemma output_only_print (s : string) : output_only (print s).
Proof. exists [s], (Ok tt). apply writes_print. Qed.

Lemma output_only_for_each {A} (items : list A) (body : A -> M unit) :
  (forall x, output_only (body x)) -> output_only (for_each items body).
Proof.
  intros Hbody. induction items as [|x items IH]; simpl.
  - apply output_only_ret.
  - apply output_only_bind; [apply Hbody | by intros _].
Qed.

(** A loop whose bodies all complete prints their outputs in turn. *)
Lemma writes_for_each_ok {A} (items : list A) (body : A -> M unit) (blk : A -> list string) :
  Forall (fun x => writes (body x) (blk x) (Ok tt)) items ->
  writes (for_each items body) (concat (map blk items)) (Ok tt).
Proof.
  induction 1 as [|x items Hx _ IH]; simpl.
  - apply writes_ret.
  - by eapply writes_bind_ok.
Qed.

(** A loop with a body that raises, ends by raising. *)
Lemma for_each_raises {A} (items : list A) (body : A -> M unit) x :
  (forall y, output_only (body y)) ->
  x ∈ items ->
  (exists o e, writes (body x) o (Raise e)) ->
  exists o e, writes (for_each items body) o (Raise e).
Proof.
  intros Hoo Hin (ox & ex & Hx).
  induction items as [|y items IH]; [by apply elem_of_nil in Hin|].
  simpl. destruct (Hoo y) as (oy & [[]|ey] & Hy).
  - apply elem_of_cons in Hin as [<-|Hin].
    + destruct (writes_fun _ _ _ _ _ Hx Hy) as [_ ?]; done.
    + destruct (IH Hin) as (o & e & Hrest).
      exists (oy ++ o), e. by eapply writes_bind_ok.
  - exists oy, ey. by apply writes_bind_raise.
Qed.

Lemma writes_bind_print {B} (s s' : string) (k : unit -> M B) o r :
  s = s' -> writes (k tt) o r -> writes (bind (print s) k) (s' :: o) r.
Proof.
  intros <- Hk. apply (writes_bind_ok _ _ [s] tt o r); [apply writes_print | done].
Qed.

Lemma writes_bind_ret {A B} (a : A) (k : A -> M B) o r :
  writes (k a) o r -> writes (bind (ret a) k) o r.
Proof.
  intros Hk. apply (writes_bind_ok _ _ [] a o r); [apply writes_ret | done].
Qed.

Lemma writes_bind_assoc {A B C} (m : M A) (f : A -> M B) (g : B -> M C) o r :
  writes (bind m (fun x => bind (f x) g)) o r -> writes (bind (bind m f) g) o r.
Proof.
  intros H w. rewrite <- (H w). unfold bind. by destruct (m w) as [[a|e] w'].
Qed.

Lemma writes_print_last (s s' : string) : s = s' -> writes (print s) [s'] (Ok tt).
Proof. intros <-. apply writes_print. Qed.

(** One step of a computation whose next statement is known; the output
    expected is peeled as the statements print it. *)
Ltac run_step side :=
  cbv beta;
  lazymatch goal with
  | |- writes (bind (bind _ _) _) _ _ => apply writes_bind_assoc
  | |- writes (bind (ret _) _) _ _ => apply writes_bind_ret
  | |- writes (bind (print _) _) _ _ =>
      eapply writes_bind_print; [side|]
  | |- writes (bind (lift _) _) _ _ =>
      first [ eapply writes_bind_lift_ok;
                [cbn [py_get py_upper py_len py_iter default]; side|]
            | eapply writes_bind_lift_raise;
                cbn [py_get py_upper py_len py_iter default]; side ]
  | |- writes (bind (if ?b then _ else _) _) _ _ =>
      let b' := eval cbv in b in
      change b with b'; cbv iota
  | |- writes (print _) _ _ => eapply writes_print_last; side
  | |- writes (ret _) _ _ => apply writes_ret
  | |- writes (lift _) _ _ => apply writes_lift
  end.

Ltac run_with side := repeat (run_step side).

(** * The renderer against the layout *)

Lemma shown_default (o : option json) : py_str (default (JStr "N/A") o) = shown o.
Proof. by destruct o. Qed.

Lemma sub_mapping (c : list (string * json)) (sub : string) :
  opt_mapping (dict_lookup sub c) = true ->
  default (JObj []) (dict_lookup sub c) = JObj (sub_fields c sub).
Proof.
  unfold sub_fields. by destruct (dict_lookup sub c) as [[]|].
Qed.

Lemma body_writes (c : list (string * json)) :
  is_contract (JObj c) = true ->
  writes (print_options_chain_body (JObj c)) (block_lines (JObj c)) (Ok tt).
Proof.
  unfold is_contract. rewrite !andb_true_iff.
  intros [[[[Hd Hg] Hq] Ht] Hty].
  unfold print_options_chain_body, block_lines, fixed_lines, quote_lines,
    trade_lines, sub_field, NA in *.
  do 4 (run_step ltac:(reflexivity)).
  rewrite (sub_mapping c "details" Hd), (sub_mapping c "greeks" Hg),
    (sub_mapping c "last_quote" Hq), (sub_mapping c "last_trade" Ht).
  destruct (dict_lookup "contract_type" (sub_fields c "details")) as [[]|] eqn:Ety;
    try discriminate Hty;
    destruct (sub_fields c "last_quote") as [|q0 q];
    destruct (sub_fields c "last_trade") as [|t0 t];
    cbn [app];
    run_with ltac:(rewrite ?shown_default, ?Ety; reflexivity).
Qed.

Lemma forallb_Forall {A} (f : A -> bool) (l : list A) :
  forallb f l = true -> Forall (fun x => f x = true) l.
Proof.
  induction l as [|x l IH]; simpl; [constructor|].
  rewrite andb_true_iff. intros [Hx Hl]. constructor; auto.
Qed.

Lemma results_sequence (d : list (string * json)) :
  is_response (JObj d) = true ->
  default (JArr []) (dict_lookup "results" d) = JArr (results_of d)
  /\ Forall (fun c => is_contract c = true) (results_of d).
Proof.
  unfold is_response, results_of.
  destruct (dict_lookup "results" d) as [[]|]; try discriminate; simpl.
  - intros H. split; [done|]. by apply forallb_Forall.
  - intros _. split; [done | constructor].
Qed.

Lemma render_writes (d : list (string * json)) :
  is_response (JObj d) = true ->
  writes (print_options_chain (JObj d))
         (header_lines d ++ concat (map block_lines (results_of d))) (Ok tt).
Proof.
  intros Hresp. destruct (results_sequence d Hresp) as [Hres Hcs].
  unfold print_options_chain, header_lines. cbn [app].
  do 6 (run_step ltac:(reflexivity)).
  rewrite Hres.
  do 3 (run_step ltac:(reflexivity)). cbv beta.
  apply writes_for_each_ok.
  eapply Forall_impl; [exact Hcs|].
  intros [] Hc; try discriminate Hc. by apply body_writes.
Qed.

(** Scenario S1, line by line. *)
Example render_full_call :
  writes (print_options_chain (JObj (response_of [JObj full_call])))
    [ "Status: OK"; "Request ID: abc"; str_mul "-" 80;
      "Total contracts returned: 1" +:+ newline;
      "Contract: O:AAPL250117C00150000"; "  Type: CALL"; "  Strike: $150";
      "  Expiration: 2025-01-17"; "  Exercise Style: american"; "  Greeks:";
      "    Delta: 0.5"; "    Gamma: 0.02"; "    Theta: -0.03"; "    Vega:  0.1";
      "  Implied Volatility: 0.25"; "  Open Interest: 1234";
      "  Last Quote: Bid $5.1 / Ask $5.3"; "  Last Trade: $5.2 (10 contracts)"; "" ]
    (Ok tt).
Proof. exact (render_writes (response_of [JObj full_call]) eq_refl). Qed.

(** ** Nothing but the argument decides what is printed *)

Ltac output_only_tac :=
  repeat first
    [ apply output_only_bind; [|intros ?]
    | apply output_only_if
    | apply output_only_print
    | apply output_only_lift
    | apply output_only_ret ].

Lemma body_output_only (option : json) : output_only (print_options_chain_body option).
Proof. unfold print_options_chain_body. output_only_tac. Qed.

Lemma render_output_only (data : json) : output_only (print_options_chain data).
Proof.
  unfold print_options_chain. output_only_tac.
  apply output_only_for_each, body_output_only.
Qed.

(** * The snapshot client *)

Lemma append_nonempty (a b : string) (c : ascii) :
  String.eqb (a +:+ String c b) "" = false.
Proof. by destruct a. Qed.

Lemma append_literal (c : ascii) (a b : string) :
  String c a +:+ b = String c (a +:+ b).
Proof. reflexivity. Qed.

Lemma error_msg_truthy (r : http_response) :
  py_truthy (JStr (http_error_msg r)) = is_error_status (status_code r).
Proof.
  unfold http_error_msg, is_error_status, py_truthy.
  destruct (Z.leb_spec0 400 (status_code r));
    destruct (Z.ltb_spec0 (status_code r) 500);
    destruct (Z.leb_spec0 500 (status_code r));
    destruct (Z.ltb_spec0 (status_code r) 600); simpl;
    rewrite ?append_literal, ?append_nonempty; try reflexivity; lia.
Qed.

(** What a call of the client does, case by case. *)
Lemma snapshot_run (u : string) (kw : gmap string json) (w : world) :
  get_options_chain_snapshot u kw w =
  let req := snapshot_request w u kw in
  match upstream w req with
  | inl msg => (Raise (RequestException msg), issue req w)
  | inr r =>
      if is_error_status (status_code r)
      then (Raise (HTTPError (http_error_msg r) r), issue req w)
      else match parsed r with
           | inl msg => (Raise (JSONDecodeError msg), issue req w)
           | inr d => (Ok d, issue req w)
           end
  end.
Proof.
  unfold get_options_chain_snapshot, snapshot_request, bind, requests_get, issue.
  cbv zeta.
  destruct (upstream w _) as [msg|r]; [done|].
  unfold raise_for_status. rewrite error_msg_truthy.
  destruct (is_error_status (status_code r)); [done|].
  unfold ret, response_json. by destruct (parsed r).
Qed.

Lemma snapshot_emit (u : string) (kw : gmap string json) out (w : world) :
  get_options_chain_snapshot u kw (emit out w) =
  let '(r, w') := get_options_chain_snapshot u kw w in (r, emit out w').
Proof.
  rewrite !snapshot_run. cbv zeta.
  change (snapshot_request (emit out w) u kw) with (snapshot_request w u kw).
  change (upstream (emit out w)) with (upstream w).
  destruct (upstream w _) as [msg|r]; [done|].
  destruct (is_error_status (status_code r)); [done|].
  by destruct (parsed r).
Qed.

(** Whatever the upstream answers, the call issues its request, once. *)
Lemma snapshot_sent (u : string) (kw : gmap string json) (w : world) :
  sent (get_options_chain_snapshot u kw w).2 = sent w ++ [snapshot_request w u kw].
Proof.
  rewrite snapshot_run. cbv zeta.
  destruct (upstream w _) as [msg|r]; [done|].
  destruct (is_error_status (status_code r)); [done|].
  by destruct (parsed r).
Qed.

Lemma error_status_range (s : Z) : is_error_status s = true <-> 400 <= s < 600.
Proof. unfold is_error_status. rewrite andb_true_iff, Z.leb_le, Z.ltb_lt. tauto. Qed.

Lemma printed_app {A} (m : M A) (w : world) out :
  stdout (m w).2 = stdout w ++ out -> printed m w = out.
Proof. unfold printed. intros ->. by rewrite drop_app_length. Qed.

(** The driver's run when the upstream answers its request with an error
    status. *)
Lemma main_http_error (w : world) (r : http_response) :
  upstream w (snapshot_request w "AAPL" {[ "limit" := JInt 10 ]}) = inr r ->
  is_error_status (status_code r) = true ->
  (main w).1 = Ok tt
  /\ stdout (main w).2 =
     stdout w ++ banner ++ [ "HTTP Error: " +:+ http_error_msg r; "Response: " +:+ text r ].
Proof.
  intros Hup Hst.
  assert (main w =
          (Ok tt, emit [ "Response: " +:+ text r ]
                    (emit [ "HTTP Error: " +:+ http_error_msg r ]
                       (emit [ str_mul "=" 80 ]
                          (emit [ "Fetching options chain snapshot for AAPL..." ]
                             (issue (snapshot_request w "AAPL" {[ "limit" := JInt 10 ]}) w))))))
    as ->.
  { unfold main, try_except, bind, print.
    rewrite !snapshot_emit, snapshot_run. cbv zeta.
    by rewrite Hup, Hst. }
  split; [done|]. cbn [snd stdout emit issue banner]. by rewrite <- !app_assoc.
Qed.

(** * The claims on the snapshot client *)

(** C1, as amended. Every call of [get_options_chain_snapshot] issues
    exactly one GET; its URL is the base URL, [/snapshot/options/] and the
    underlying ticker as given; every supplied filter is among its query
    parameters under its own name, and so is [apiKey], bound to the
    configured key unless a filter named [apiKey] is supplied, which then
    is the value sent. *)
Theorem snapshot_request_shape (u : string) (kw : gmap string json) (w : world) :
  exists req,
    sent (get_options_chain_snapshot u kw w).2 = sent w ++ [req]
    /\ req_url req = env_str (BASE_URL w) +:+ "/snapshot/options/" +:+ u
    /\ req_params req !! "apiKey" = Some (default (env_val (API_KEY w)) (kw !! "apiKey"))
    /\ forall k v, kw !! k = Some v -> req_params req !! k = Some v.
Proof.
  exists (snapshot_request w u kw). split; [apply snapshot_sent|].
  split; [done|]. unfold snapshot_request, dict_update; simpl. split.
  - destruct (kw !! "apiKey") as [v|] eqn:E.
    + by apply lookup_union_Some_l.
    + rewrite lookup_union_r by done. by rewrite lookup_singleton_eq.
  - intros k v Hk. by apply lookup_union_Some_l.
Qed.

(** C1 as stated fails: with a filter named [apiKey], the one request
    issued does not carry the configured key under [apiKey]. *)
Lemma snapshot_request_own_key :
  ~ exists req,
      sent (get_options_chain_snapshot "AAPL" own_key (example_world unauthorized)).2
        = sent (example_world unauthorized) ++ [req]
      /\ req_params req !! "apiKey" = Some (env_val (API_KEY (example_world unauthorized))).
Proof.
  intros (req & Hsent & Hkey).
  rewrite snapshot_sent in Hsent. apply app_inj_tail in Hsent as [_ <-].
  unfold snapshot_request, dict_update, own_key in Hkey; simpl in Hkey.
  rewrite (lookup_union_Some_l _ _ _ (JStr "OTHER")) in Hkey; [discriminate|].
  by rewrite lookup_singleton_eq.
Qed.

(** C8. A filter named [apiKey] takes the place of the configured key in
    the query parameters of the request issued. *)
Theorem own_api_key_wins (u : string) (kw : gmap string json) (w : world) (v : json) :
  kw !! "apiKey" = Some v ->
  exists req,
    sent (get_options_chain_snapshot u kw w).2 = sent w ++ [req]
    /\ req_params req !! "apiKey" = Some v.
Proof.
  intros Hv. exists (snapshot_request w u kw). split; [apply snapshot_sent|].
  unfold snapshot_request, dict_update; simpl. by apply lookup_union_Some_l.
Qed.

Lemma own_api_key_wins_witness :
  exists req,
    sent (get_options_chain_snapshot "AAPL" own_key (example_world unauthorized)).2
      = sent (example_world unauthorized) ++ [req]
    /\ req_params req !! "apiKey" = Some (JStr "OTHER").
Proof.
  apply (own_api_key_wins "AAPL" own_key (example_world unauthorized) (JStr "OTHER")).
  unfold own_key. apply lookup_singleton_eq.
Defined.

(** C3. When the upstream answers with a 2xx status and a body that
    parses, the call returns the parsed document itself. *)
Theorem success_returns_document
    (u : string) (kw : gmap string json) (w : world) (r : http_response) (d : json) :
  upstream w (snapshot_request w u kw) = inr r ->
  200 <= status_code r < 300 ->
  parsed r = inr d ->
  (get_options_chain_snapshot u kw w).1 = Ok d.
Proof.
  intros Hup Hst Hd. rewrite snapshot_run. cbv zeta. rewrite Hup.
  destruct (is_error_status (status_code r)) eqn:E.
  - apply error_status_range in E. lia.
  - by rewrite Hd.
Qed.

(** Scenario S3: a 200 answer without contracts comes back as it is. *)
Lemma success_returns_document_witness :
  (get_options_chain_snapshot "AAPL" limit_10 (example_world (ok_response empty_results))).1
  = Ok empty_results.
Proof.
  apply (success_returns_document "AAPL" limit_10
           (example_world (ok_response empty_results)) (ok_response empty_results)).
  - reflexivity.
  - simpl. lia.
  - reflexivity.
Defined.

(** C2, as amended. When the upstream answers with a status from 400 to
    599, the call raises an [HTTPError] that carries the response, hence
    its body text; the driver then prints [HTTP Error: ] with the error's
    text and [Response: ] with the body, after its banner, and no contract
    block. *)
Theorem http_error_reported
    (u : string) (kw : gmap string json) (w : world) (r : http_response) :
  upstream w (snapshot_request w u kw) = inr r ->
  400 <= status_code r < 600 ->
  (get_options_chain_snapshot u kw w).1 = Raise (HTTPError (http_error_msg r) r)
  /\ (u = "AAPL" -> kw = limit_10 ->
      (main w).1 = Ok tt
      /\ printed main w =
         banner ++ [ "HTTP Error: " +:+ http_error_msg r; "Response: " +:+ text r ]
      /\ count_lines "Contract:" (printed main w) = 0%nat).
Proof.
  intros Hup Hst. apply error_status_range in Hst. split.
  - rewrite snapshot_run. cbv zeta. by rewrite Hup, Hst.
  - intros -> ->. destruct (main_http_error w r Hup Hst) as [Hres Hout].
    split; [done|]. apply printed_app in Hout. rewrite Hout. split; reflexivity.
Qed.

(** Scenario S4. *)
Lemma http_error_reported_witness :
  (get_options_chain_snapshot "AAPL" limit_10 (example_world unauthorized)).1
    = Raise (HTTPError (http_error_msg unauthorized) unauthorized)
  /\ ("AAPL" = "AAPL" -> limit_10 = limit_10 ->
      (main (example_world unauthorized)).1 = Ok tt
      /\ printed main (example_world unauthorized) =
         banner ++ [ "HTTP Error: " +:+ http_error_msg unauthorized;
                     "Response: " +:+ text unauthorized ]
      /\ count_lines "Contract:" (printed main (example_world unauthorized)) = 0%nat).
Proof.
  apply (http_error_reported "AAPL" limit_10 (example_world unauthorized) unauthorized).
  - reflexivity.
  - simpl. lia.
Defined.

(** C2 as stated fails: a status of 400 or more that is not below 600 is
    no error for [raise_for_status]; the call returns the parsed body and
    the driver prints no [HTTP Error:] line. *)
Lemma status_600_not_reported :
  400 <= status_code status_600
  /\ (get_options_chain_snapshot "AAPL" limit_10 (example_world status_600)).1
     = Ok bad_key_body
  /\ count_lines "HTTP Error:" (printed main (example_world status_600)) = 0%nat.
Proof. split; [simpl; lia|]. split; vm_compute; reflexivity. Qed.

(** * The claims on the renderer *)

Lemma aborts_bind_print {B} (s : string) (k : unit -> M B) :
  aborts (k tt) -> aborts (bind (print s) k).
Proof.
  intros (o & e & Hk). exists (s :: o), e. by apply writes_bind_print.
Qed.

Lemma aborts_bind_lift {A B} (r : result A) (f : A -> M B) a :
  r = Ok a -> aborts (f a) -> aborts (bind (lift r) f).
Proof.
  intros Hr (o & e & Hf). exists o, e. by eapply writes_bind_lift_ok.
Qed.

Lemma prints_first_nil {A} (m : M A) : output_only m -> prints_first [] m.
Proof. intros (o & r & H). by exists o, r. Qed.

Lemma prints_first_bind_print {B} (s : string) (k : unit -> M B) pre :
  prints_first pre (k tt) -> prints_first (s :: pre) (bind (print s) k).
Proof.
  intros (o & r & Hk). exists o, r. simpl. by apply writes_bind_print.
Qed.

Lemma prints_first_bind_lift {A B} (r : result A) (f : A -> M B) a pre :
  r = Ok a -> prints_first pre (f a) -> prints_first pre (bind (lift r) f).
Proof.
  intros Hr (o & res & Hf). exists o, res. by eapply writes_bind_lift_ok.
Qed.

(** C7. What [print_options_chain] prints and how it ends are decided by
    its argument alone: there are an output and an outcome such that, from
    every world, the call appends that output to standard output, changes
    nothing else and ends with that outcome. *)
Theorem print_options_chain_deterministic (data : json) :
  exists out r, forall w, print_options_chain data w = (r, emit out w).
Proof. exact (render_output_only data). Qed.

(** C9. In a response without the key [status] the first line printed is
    [Status: None], and without the key [request_id] the second one is
    [Request ID: None]. *)
Theorem absent_header_fields_print_None (d : list (string * json)) :
  exists l1 l2 rest r,
    writes (print_options_chain (JObj d)) (l1 :: l2 :: rest) r
    /\ (dict_lookup "status" d = None -> l1 = "Status: None")
    /\ (dict_lookup "request_id" d = None -> l2 = "Request ID: None").
Proof.
  assert (prints_first
            [ "Status: " +:+ py_str (default JNull (dict_lookup "status" d));
              "Request ID: " +:+ py_str (default JNull (dict_lookup "request_id" d)) ]
            (print_options_chain (JObj d))) as (rest & r & H).
  { unfold print_options_chain.
    eapply prints_first_bind_lift; [reflexivity|].
    apply prints_first_bind_print.
    eapply prints_first_bind_lift; [reflexivity|].
    apply prints_first_bind_print.
    apply prints_first_nil. output_only_tac.
    apply output_only_for_each, body_output_only. }
  eexists _, _, rest, r. split; [exact H|].
  split; intros ->; reflexivity.
Qed.

Lemma count_lines_app (p : string) (l1 l2 : list string) :
  count_lines p (l1 ++ l2) = (count_lines p l1 + count_lines p l2)%nat.
Proof. unfold count_lines. by rewrite List.filter_app, length_app. Qed.

Lemma has_line_app (p : string) (l1 l2 : list string) :
  has_line p (l1 ++ l2) = has_line p l1 || has_line p l2.
Proof. apply existsb_app. Qed.

(** A block has one [Contract:] line and no header line. *)
Lemma block_counts (v : json) :
  is_contract v = true ->
  count_lines "Contract:" (block_lines v) = 1%nat
  /\ count_lines "Status:" (block_lines v) = 0%nat
  /\ count_lines "Request ID:" (block_lines v) = 0%nat.
Proof.
  destruct v as [| | | | | |c]; try discriminate. intros _.
  unfold block_lines, quote_lines, trade_lines.
  destruct (sub_fields c "last_quote"), (sub_fields c "last_trade");
    repeat split; reflexivity.
Qed.

Lemma blocks_counts (cs : list json) :
  Forall (fun c => is_contract c = true) cs ->
  count_lines "Contract:" (concat (map block_lines cs)) = length cs
  /\ count_lines "Status:" (concat (map block_lines cs)) = 0%nat
  /\ count_lines "Request ID:" (concat (map block_lines cs)) = 0%nat.
Proof.
  induction 1 as [|c cs Hc _ (IH1 & IH2 & IH3)]; [done|].
  destruct (block_counts c Hc) as (H1 & H2 & H3).
  cbn [map concat length]. rewrite !count_lines_app, H1, H2, H3, IH1, IH2, IH3.
  done.
Qed.

(** C5. For every response of the data model, whichever of its fields are
    present, the render completes, prints exactly one [Status:] line and
    exactly one [Request ID:] line, and as many contract blocks (lines
    [Contract: ...]) as [results] has elements: none when [results] is
    absent or empty. *)
Theorem header_and_block_counts (d : list (string * json)) :
  is_response (JObj d) = true ->
  exists out,
    writes (print_options_chain (JObj d)) out (Ok tt)
    /\ count_lines "Status:" out = 1%nat
    /\ count_lines "Request ID:" out = 1%nat
    /\ count_lines "Contract:" out = length (results_of d).
Proof.
  intros Hresp. eexists. split; [by apply render_writes|].
  destruct (results_sequence d Hresp) as [_ Hcs].
  destruct (blocks_counts _ Hcs) as (H1 & H2 & H3).
  rewrite !count_lines_app, H1, H2, H3. repeat split; reflexivity.
Qed.

Lemma header_and_block_counts_witness :
  exists out,
    writes (print_options_chain (JObj (response_of [JObj bare_put; JObj empty_quote]))) out (Ok tt)
    /\ count_lines "Status:" out = 1%nat
    /\ count_lines "Request ID:" out = 1%nat
    /\ count_lines "Contract:" out = 2%nat.
Proof.
  apply (header_and_block_counts (response_of [JObj bare_put; JObj empty_quote])).
  reflexivity.
Defined.

Lemma fixed_no_quote_trade (c : list (string * json)) :
  has_line "  Last Quote:" (fixed_lines c) = false
  /\ has_line "  Last Trade:" (fixed_lines c) = false.
Proof. split; reflexivity. Qed.

Lemma nonempty_sub_mapping (c : list (string * json)) (sub : string) :
  opt_mapping (dict_lookup sub c) = true ->
  sub_fields c sub <> [] <-> exists q, dict_lookup sub c = Some (JObj q) /\ q <> [].
Proof.
  unfold sub_fields. destruct (dict_lookup sub c) as [[]|]; try discriminate.
  - intros _. split; [by eauto|]. by intros (q & [= <-] & Hq).
  - intros _. split; [done|]. by intros (q & ? & _).
Qed.

(** C6. The block of a contract has a [Last Quote:] line exactly when the
    contract has a [last_quote] mapping that is not empty, and a
    [Last Trade:] line exactly when it has a [last_trade] mapping that is
    not empty; a mapping that is present and empty gives no line. *)
Theorem quote_and_trade_lines (c : list (string * json)) :
  is_contract (JObj c) = true ->
  exists out,
    writes (print_options_chain_body (JObj c)) out (Ok tt)
    /\ (has_line "  Last Quote:" out = true
        <-> exists q, dict_lookup "last_quote" c = Some (JObj q) /\ q <> [])
    /\ (has_line "  Last Trade:" out = true
        <-> exists t, dict_lookup "last_trade" c = Some (JObj t) /\ t <> []).
Proof.
  intros Hc. exists (block_lines (JObj c)). split; [by apply body_writes|].
  unfold is_contract in Hc. rewrite !andb_true_iff in Hc.
  destruct Hc as [[[[_ _] Hq] Ht] _].
  rewrite <- (nonempty_sub_mapping c "last_quote" Hq),
          <- (nonempty_sub_mapping c "last_trade" Ht).
  destruct (fixed_no_quote_trade c) as [Fq Ft].
  unfold block_lines, quote_lines, trade_lines.
  rewrite !has_line_app, Fq, Ft.
  destruct (sub_fields c "last_quote"), (sub_fields c "last_trade");
    split; (split; [try discriminate; try done | try done; intros _; reflexivity]).
Qed.

(** A present and empty [last_quote] next to a non-empty [last_trade]. *)
Lemma quote_and_trade_lines_witness :
  exists out,
    writes (print_options_chain_body (JObj empty_quote)) out (Ok tt)
    /\ (has_line "  Last Quote:" out = true
        <-> exists q, dict_lookup "last_quote" empty_quote = Some (JObj q) /\ q <> [])
    /\ (has_line "  Last Trade:" out = true
        <-> exists t, dict_lookup "last_trade" empty_quote = Some (JObj t) /\ t <> []).
Proof. apply (quote_and_trade_lines empty_quote). reflexivity. Defined.

Lemma block_in_render (cs : list json) (c : list (string * json)) :
  JObj c ∈ cs ->
  exists pre post, concat (map block_lines cs) = pre ++ fixed_lines c ++ post.
Proof.
  intros (l1 & l2 & ->)%list_elem_of_split.
  exists (concat (map block_lines l1)),
         ((quote_lines c ++ trade_lines c ++ [""]) ++ concat (map block_lines l2)).
  rewrite map_app, concat_app. cbn [map concat block_lines].
  by rewrite <- !app_assoc.
Qed.

(** C4. For a response of the data model the render completes without an
    error, and for every contract of [results] its output has the twelve
    lines of [fixed_lines] in a row: each field as received, or [N/A]
    where its key or the sub-mapping around it is absent, the contract
    type uppercased. *)
Theorem absent_fields_render_sentinel (d : list (string * json)) :
  is_response (JObj d) = true ->
  exists out,
    writes (print_options_chain (JObj d)) out (Ok tt)
    /\ forall c, JObj c ∈ results_of d ->
         exists pre post, out = pre ++ fixed_lines c ++ post.
Proof.
  intros Hresp. eexists. split; [by apply render_writes|].
  intros c Hc. destruct (block_in_render _ c Hc) as (pre & post & ->).
  exists (header_lines d ++ pre), post. by rewrite <- !app_assoc.
Qed.

(** Scenarios S2 and S6. *)
Lemma absent_fields_render_sentinel_witness :
  fixed_lines bare_put =
    [ "Contract: O:AAPL250117P00150000"; "  Type: PUT"; "  Strike: $N/A";
      "  Expiration: N/A"; "  Exercise Style: N/A"; "  Greeks:";
      "    Delta: N/A"; "    Gamma: N/A"; "    Theta: N/A"; "    Vega:  N/A";
      "  Implied Volatility: N/A"; "  Open Interest: N/A" ]
  /\ exists out,
       writes (print_options_chain (JObj (response_of [JObj bare_put]))) out (Ok tt)
       /\ forall c, JObj c ∈ results_of (response_of [JObj bare_put]) ->
            exists pre post, out = pre ++ fixed_lines c ++ post.
Proof.
  split; [reflexivity|].
  apply (absent_fields_render_sentinel (response_of [JObj bare_put])). reflexivity.
Defined.

(** C10. A contract whose [details] bind [contract_type] to something
    that is not a string stops the render: its block ends after the
    [Contract:] line with the [AttributeError] of the uppercasing, and
    [print_options_chain] on a response with such a contract ends by
    raising. *)
Theorem contract_type_not_string_aborts
    (d c det : list (string * json)) (cs : list json) (v : json) :
  dict_lookup "results" d = Some (JArr cs) ->
  JObj c ∈ cs ->
  dict_lookup "details" c = Some (JObj det) ->
  dict_lookup "contract_type" det = Some v ->
  (forall s, v <> JStr s) ->
  writes (print_options_chain_body (JObj c))
         [ "Contract: " +:+ shown (dict_lookup "ticker" det) ]
         (Raise (no_attribute v "upper"))
  /\ aborts (print_options_chain (JObj d)).
Proof.
  intros Hres Hin Hdet Hty Hv.
  assert (writes (print_options_chain_body (JObj c))
            [ "Contract: " +:+ shown (dict_lookup "ticker" det) ]
            (Raise (no_attribute v "upper"))) as Hbody.
  { unfold print_options_chain_body, NA.
    destruct v; try (by destruct (Hv s));
      run_with ltac:(rewrite ?Hdet, ?Hty, ?shown_default; reflexivity). }
  split; [exact Hbody|].
  unfold print_options_chain.
  eapply aborts_bind_lift; [reflexivity|]. apply aborts_bind_print.
  eapply aborts_bind_lift; [reflexivity|]. apply aborts_bind_print.
  apply aborts_bind_print.
  eapply aborts_bind_lift; [cbn [py_get]; rewrite Hres; reflexivity|].
  eapply aborts_bind_lift; [reflexivity|]. apply aborts_bind_print.
  eapply aborts_bind_lift; [reflexivity|].
  eapply for_each_raises; [apply body_output_only | exact Hin | by eauto].
Qed.

Lemma contract_type_not_string_aborts_witness :
  writes (print_options_chain_body (JObj null_type))
         [ "Contract: N/A" ] (Raise (no_attribute JNull "upper"))
  /\ aborts (print_options_chain (JObj (response_of [JObj null_type; JObj bare_put]))).
Proof.
  apply (contract_type_not_string_aborts
           (response_of [JObj null_type; JObj bare_put]) null_type
           [("contract_type", JNull)] [JObj null_type; JObj bare_put] JNull).
  - reflexivity.
  - apply list_elem_of_here.
  - reflexivity.
  - reflexivity.
  - intros s. discriminate.
Defined.

(** * More on the renderer *)

Lemma quote_cases (c : list (string * json)) (key : string) :
  quote_ok (dict_lookup key c) = true ->
  (py_truthy (default (JObj []) (dict_lookup key c)) = false
   /\ sub_fields c key = [])
  \/ (exists x q, default (JObj []) (dict_lookup key c) = JObj (x :: q)
                  /\ sub_fields c key = x :: q).
Proof.
  unfold quote_ok, sub_fields.
  destruct (dict_lookup key c) as [[| | | | | |[|x q]]|]; simpl; intros H;
    try (left; split; [by apply negb_true_iff in H | done]);
    try (by left).
  right. by exists x, q.
Qed.

(** The block of a contract that [block_total] accepts. *)
Lemma body_writes_total (c : list (string * json)) :
  block_total (JObj c) = true ->
  writes (print_options_chain_body (JObj c)) (block_lines (JObj c)) (Ok tt).
Proof.
  unfold block_total. rewrite !andb_true_iff.
  intros [[[[Hd Hty] Hg] Hq] Ht].
  unfold print_options_chain_body, block_lines, fixed_lines, quote_lines,
    trade_lines, sub_field, NA in *.
  do 4 (run_step ltac:(reflexivity)). cbv beta.
  rewrite (sub_mapping c "details" Hd), (sub_mapping c "greeks" Hg).
  destruct (dict_lookup "contract_type" (sub_fields c "details")) as [[]|] eqn:Ety;
    try discriminate Hty;
    destruct (quote_cases c "last_quote" Hq) as [[Eq ->]|(q0 & q & Eq & ->)];
    destruct (quote_cases c "last_trade" Ht) as [[Et ->]|(t0 & t & Et & ->)];
    rewrite Eq, Et; cbn [app];
    run_with ltac:(rewrite ?shown_default, ?Ety; reflexivity).
Qed.

Lemma quote_bad (o : option json) :
  quote_ok o = false ->
  exists z, o = Some z /\ py_truthy z = true /\ (forall q, z <> JObj q).
Proof.
  destruct o as [z|]; [|discriminate]. intros H. exists z.
  destruct z; try discriminate H; simpl in H; apply negb_false_iff in H; done.
Qed.

Lemma mapping_bad (o : option json) :
  opt_mapping o = false -> exists z, o = Some z /\ (forall q, z <> JObj q).
Proof.
  destruct o as [z|]; [|discriminate]. intros H. exists z.
  by destruct z.
Qed.

(** Run the loop body up to the statement that raises; [tac] rewrites
    with what is known of the contract. *)
Ltac abort_body tac :=
  eexists _, _; split;
  [ do 4 (run_step ltac:(reflexivity)); cbv beta; tac | reflexivity ].

(** A value that [block_total] rejects makes the loop body raise, with an
    [AttributeError]. *)
Lemma body_aborts (v : json) :
  block_total v = false ->
  exists out e,
    writes (print_options_chain_body v) out (Raise e) /\ attr_or_type e = true.
Proof.
  intros H. unfold print_options_chain_body, NA.
  destruct v as [| | | | | |c];
    try (eexists _, _; split;
         [eapply writes_bind_lift_raise; reflexivity | reflexivity]).
  unfold block_total, sub_field in H.
  destruct (opt_mapping (dict_lookup "details" c)) eqn:Hd.
  2:{ destruct (mapping_bad _ Hd) as (z & Ez & Hz).
      destruct z; try (by destruct (Hz fields));
        abort_body ltac:(rewrite Ez; cbn [default from_option id];
                         run_with ltac:(reflexivity)). }
  destruct (opt_string (dict_lookup "contract_type" (sub_fields c "details"))) eqn:Hty.
  2:{ destruct (dict_lookup "contract_type" (sub_fields c "details")) as [[]|] eqn:Ety;
        try discriminate Hty;
        abort_body ltac:(rewrite (sub_mapping c "details" Hd);
                         run_with ltac:(rewrite ?Ety; reflexivity)). }
  destruct (opt_mapping (dict_lookup "greeks" c)) eqn:Hg.
  2:{ destruct (mapping_bad _ Hg) as (z & Ez & Hz).
      destruct (dict_lookup "contract_type" (sub_fields c "details")) as [[]|] eqn:Ety;
        try discriminate Hty;
        (destruct z; try (by destruct (Hz fields));
         abort_body ltac:(rewrite (sub_mapping c "details" Hd), Ez;
                          cbn [default from_option id];
                          run_with ltac:(rewrite ?Ety; reflexivity))). }
  destruct (quote_ok (dict_lookup "last_quote" c)) eqn:Hq.
  2:{ destruct (quote_bad _ Hq) as (z & Ez & Hz & Hnm).
      destruct (dict_lookup "contract_type" (sub_fields c "details")) as [[]|] eqn:Ety;
        try discriminate Hty;
        (destruct z; try (by destruct (Hnm fields)); try discriminate Hz;
         abort_body ltac:(rewrite (sub_mapping c "details" Hd),
                            (sub_mapping c "greeks" Hg), Ez;
                          cbn [default from_option id]; rewrite Hz;
                          run_with ltac:(rewrite ?Ety; reflexivity))). }
  destruct (quote_ok (dict_lookup "last_trade" c)) eqn:Ht; [discriminate H|].
  destruct (quote_bad _ Ht) as (z & Ez & Hz & Hnm).
  destruct (dict_lookup "contract_type" (sub_fields c "details")) as [[]|] eqn:Ety;
    try discriminate Hty;
    destruct (quote_cases c "last_quote" Hq) as [[Eq _]|(q0 & q & Eq & _)];
    (destruct z; try (by destruct (Hnm fields)); try discriminate Hz;
     abort_body ltac:(rewrite (sub_mapping c "details" Hd),
                        (sub_mapping c "greeks" Hg), Eq, Ez;
                      cbn [default from_option id]; rewrite Hz;
                      run_with ltac:(rewrite ?Ety; reflexivity))).
Qed.

(** The loop body ends one way or the other, as [block_total] says. *)
Lemma body_total_cases (v : json) :
  (block_total v = true /\ writes (print_options_chain_body v) (block_lines v) (Ok tt))
  \/ (block_total v = false
      /\ exists out e,
           writes (print_options_chain_body v) out (Raise e) /\ attr_or_type e = true).
Proof.
  destruct (block_total v) eqn:H.
  - left. split; [done|]. destruct v; try discriminate H. by apply body_writes_total.
  - right. split; [done|]. by apply body_aborts.
Qed.

Lemma body_raise_kind (v : json) out e :
  writes (print_options_chain_body v) out (Raise e) -> attr_or_type e = true.
Proof.
  intros H. destruct (body_total_cases v) as [[_ Hok]|(_ & o & e' & Hr & Hk)].
  - destruct (writes_fun _ _ _ _ _ H Hok) as [_ ?]. discriminate.
  - destruct (writes_fun _ _ _ _ _ H Hr) as [_ [= ->]]. done.
Qed.

Lemma for_each_raises_kind {A} (items : list A) (body : A -> M unit) x (P : exn -> Prop) :
  (forall y, output_only (body y)) ->
  (forall y o e, writes (body y) o (Raise e) -> P e) ->
  x ∈ items ->
  (exists o e, writes (body x) o (Raise e)) ->
  exists o e, writes (for_each items body) o (Raise e) /\ P e.
Proof.
  intros Hoo HP Hin (ox & ex & Hx).
  induction items as [|y items IH]; [by apply elem_of_nil in Hin|].
  simpl. destruct (Hoo y) as (oy & [[]|ey] & Hy).
  - apply elem_of_cons in Hin as [<-|Hin].
    + destruct (writes_fun _ _ _ _ _ Hx Hy) as [_ ?]; done.
    + destruct (IH Hin) as (o & e & Hrest & He).
      exists (oy ++ o), e. split; [by eapply writes_bind_ok | done].
  - exists oy, ey. split; [by apply writes_bind_raise | by eapply HP].
Qed.

(** The loop stops at the first body that raises. *)
Lemma writes_for_each_stop {A} (good rest : list A) (bad : A)
    (body : A -> M unit) (blk : A -> list string) partial e :
  Forall (fun x => writes (body x) (blk x) (Ok tt)) good ->
  writes (body bad) partial (Raise e) ->
  writes (for_each (good ++ bad :: rest) body)
         (concat (map blk good) ++ partial) (Raise e).
Proof.
  intros Hgood Hbad. induction Hgood as [|x good Hx _ IH]; simpl.
  - by apply writes_bind_raise.
  - rewrite <- app_assoc. by eapply writes_bind_ok.
Qed.

(** The render, from the header to the loop. *)
Lemma render_run (d : list (string * json)) (n : nat) (options : list json) o r :
  py_len (default (JArr []) (dict_lookup "results" d)) = Ok n ->
  py_iter (default (JArr []) (dict_lookup "results" d)) = Ok options ->
  writes (for_each options print_options_chain_body) o r ->
  writes (print_options_chain (JObj d))
    ([ "Status: " +:+ py_str (default JNull (dict_lookup "status" d));
       "Request ID: " +:+ py_str (default JNull (dict_lookup "request_id" d));
       str_mul "-" 80;
       "Total contracts returned: " +:+ int_str (Z.of_nat n) +:+ newline ] ++ o) r.
Proof.
  intros Hlen Hiter Hloop. unfold print_options_chain. cbn [app].
  do 6 (run_step ltac:(reflexivity)).
  do 3 (run_step ltac:(rewrite ?Hlen, ?Hiter; reflexivity)). cbv beta.
  exact Hloop.
Qed.

Lemma str_chars_length (s : string) : length (str_chars s) = String.length s.
Proof. induction s as [|c s IH]; simpl; congruence. Qed.

Lemma sized_len_iter (v : json) :
  sized v = true ->
  exists options, py_iter v = Ok options /\ py_len v = Ok (length options).
Proof.
  destruct v; try discriminate; intros _; eexists; (split; [reflexivity|]); simpl.
  - by rewrite str_chars_length.
  - done.
  - by rewrite length_map.
Qed.

Lemma unsized_len (v : json) :
  sized v = false ->
  py_len v = Raise (TypeError ("object of type '" +:+ type_name v +:+ "' has no len()")).
Proof. by destruct v. Qed.

(** What is iterated in a document that renders to the end. *)
Lemma render_total_results (d : list (string * json)) :
  render_total (JObj d) = true ->
  py_iter (default (JArr []) (dict_lookup "results" d)) = Ok (results_of d)
  /\ py_len (default (JArr []) (dict_lookup "results" d)) = Ok (length (results_of d))
  /\ Forall (fun c => block_total c = true) (results_of d).
Proof.
  unfold render_total, results_of.
  destruct (dict_lookup "results" d) as [[| | | |s|cs|f]|]; simpl; try discriminate.
  - destruct s; [by repeat split|]. simpl. discriminate.
  - intros H. repeat split. by apply forallb_Forall.
  - destruct f; [by repeat split|]. simpl. discriminate.
  - by repeat split.
Qed.

Lemma render_writes_total (d : list (string * json)) :
  render_total (JObj d) = true ->
  writes (print_options_chain (JObj d))
         (header_lines d ++ concat (map block_lines (results_of d))) (Ok tt).
Proof.
  intros H. destruct (render_total_results d H) as (Hiter & Hlen & Hcs).
  apply (render_run d _ _ _ _ Hlen Hiter).
  apply writes_for_each_ok. eapply Forall_impl; [exact Hcs|].
  intros [] Hc; try discriminate Hc. by apply body_writes_total.
Qed.

Lemma forallb_false_elem {A} (f : A -> bool) (l : list A) :
  forallb f l = false -> exists x, x ∈ l /\ f x = false.
Proof.
  induction l as [|y l IH]; simpl; [discriminate|].
  destruct (f y) eqn:E; simpl.
  - intros (x & Hx & Hf)%IH. exists x. split; [by apply list_elem_of_further | done].
  - intros _. exists y. split; [apply list_elem_of_here | done].
Qed.

(** A document that [render_total] rejects makes the render raise, with
    an [AttributeError] or a [TypeError]. *)
Lemma render_aborts (data : json) :
  render_total data = false ->
  exists out e,
    writes (print_options_chain data) out (Raise e) /\ attr_or_type e = true.
Proof.
  intros H.
  destruct data as [| | | | | |d];
    try (eexists _, _; split;
         [unfold print_options_chain; eapply writes_bind_lift_raise; reflexivity
         | reflexivity]).
  unfold render_total in H.
  destruct (sized (default (JArr []) (dict_lookup "results" d))) eqn:Hs.
  - destruct (sized_len_iter _ Hs) as (options & Hiter & Hlen).
    rewrite Hiter in H.
    destruct (forallb_false_elem _ _ H) as (x & Hin & Hx).
    destruct (body_aborts x Hx) as (ox & ex & Hbody & _).
    destruct (for_each_raises_kind options print_options_chain_body x
                (fun e => attr_or_type e = true))
      as (o & e & Hloop & He);
      [apply body_output_only | intros y; apply body_raise_kind | done | by eauto |].
    eexists _, e. split; [|exact He].
    exact (render_run d _ _ o _ Hlen Hiter Hloop).
  - eexists _, _. split;
      [ unfold print_options_chain;
        do 6 (run_step ltac:(reflexivity));
        run_step ltac:(rewrite ?(unsized_len _ Hs); reflexivity)
      | reflexivity ].
Qed.

Lemma render_total_cases (data : json) :
  (render_total data = true /\ completes (print_options_chain data))
  \/ (render_total data = false
      /\ exists out e,
           writes (print_options_chain data) out (Raise e) /\ attr_or_type e = true).
Proof.
  destruct (render_total data) eqn:H.
  - left. split; [done|]. destruct data; try discriminate H.
    eexists _, tt. by apply render_writes_total.
  - right. split; [done|]. by apply render_aborts.
Qed.

(** * Further properties of the renderer *)

(** X1. A document that renders to the end gives exactly the header, with
    the number of [results], and then the blocks of the contracts in the
    order of [results], nothing else. *)
Theorem render_layout (d : list (string * json)) :
  render_total (JObj d) = true ->
  writes (print_options_chain (JObj d))
         (header_lines d ++ concat (map block_lines (results_of d))) (Ok tt).
Proof. apply render_writes_total. Qed.

Lemma render_layout_witness :
  writes (print_options_chain (JObj (response_of [JObj bare_put; JObj null_quote])))
    ([ "Status: OK"; "Request ID: abc"; str_mul "-" 80;
       "Total contracts returned: 2" +:+ newline ]
     ++ block_lines (JObj bare_put) ++ block_lines (JObj null_quote) ++ [])
    (Ok tt).
Proof.
  apply (render_layout (response_of [JObj bare_put; JObj null_quote])). reflexivity.
Defined.

(** X2. In the block of a contract each of the eleven field labels starts
    exactly one line. *)
Theorem fixed_labels_once (c : list (string * json)) :
  block_total (JObj c) = true ->
  exists out,
    writes (print_options_chain_body (JObj c)) out (Ok tt)
    /\ Forall (fun label => count_lines label out = 1%nat) fixed_labels.
Proof.
  intros H. exists (block_lines (JObj c)). split; [by apply body_writes_total|].
  unfold block_lines, quote_lines, trade_lines, fixed_labels.
  destruct (sub_fields c "last_quote"), (sub_fields c "last_trade");
    repeat constructor.
Qed.

Lemma fixed_labels_once_witness :
  exists out,
    writes (print_options_chain_body (JObj full_call)) out (Ok tt)
    /\ Forall (fun label => count_lines label out = 1%nat) fixed_labels.
Proof. apply (fixed_labels_once full_call). reflexivity. Defined.

(** X3. A block has the twelve fixed lines, one line more for each of
    [Last Quote:] and [Last Trade:] that it has, and a closing empty line,
    which is its last. *)
Theorem block_shape (c : list (string * json)) :
  block_total (JObj c) = true ->
  exists out,
    writes (print_options_chain_body (JObj c)) out (Ok tt)
    /\ length out = (13 + count_lines "  Last Quote:" out
                        + count_lines "  Last Trade:" out)%nat
    /\ last out = Some "".
Proof.
  intros H. exists (block_lines (JObj c)). split; [by apply body_writes_total|].
  unfold block_lines, quote_lines, trade_lines.
  destruct (sub_fields c "last_quote"), (sub_fields c "last_trade");
    split; reflexivity.
Qed.

Lemma block_shape_witness :
  exists out,
    writes (print_options_chain_body (JObj empty_quote)) out (Ok tt)
    /\ length out = (13 + count_lines "  Last Quote:" out
                        + count_lines "  Last Trade:" out)%nat
    /\ last out = Some "".
Proof. apply (block_shape empty_quote). reflexivity. Defined.



(** X6. A document that is not a mapping (a list, a string, a number,
    [null]) raises the [AttributeError] of its missing [get] before
    anything is printed. *)
Theorem non_mapping_document_raises (data : json) :
  (forall d, data <> JObj d) ->
  writes (print_options_chain data) [] (Raise (no_attribute data "get")).
Proof.
  intros H. unfold print_options_chain.
  destruct data; try (by destruct (H fields));
    eapply writes_bind_lift_raise; reflexivity.
Qed.

Lemma non_mapping_document_raises_witness :
  writes (print_options_chain (JArr [JObj full_call])) []
         (Raise (no_attribute (JArr [JObj full_call]) "get")).
Proof. apply (non_mapping_document_raises (JArr [JObj full_call])). discriminate. Defined.

(** X7. When [results] is bound to a value without a length ([null], a
    boolean, a number), the render prints the status, the request id and
    the separator, then raises the [TypeError] of [len]: no line
    [Total contracts returned] and no block is printed. *)
Theorem unsized_results_raise (d : list (string * json)) (v : json) :
  dict_lookup "results" d = Some v ->
  sized v = false ->
  writes (print_options_chain (JObj d))
    [ "Status: " +:+ py_str (default JNull (dict_lookup "status" d));
      "Request ID: " +:+ py_str (default JNull (dict_lookup "request_id" d));
      str_mul "-" 80 ]
    (Raise (TypeError ("object of type '" +:+ type_name v +:+ "' has no len()"))).
Proof.
  intros Hv Hs. unfold print_options_chain.
  do 6 (run_step ltac:(reflexivity)).
  run_step ltac:(rewrite ?Hv; cbn [default from_option id];
                 rewrite ?(unsized_len _ Hs); reflexivity).
Qed.

Lemma unsized_results_raise_witness :
  writes (print_options_chain (JObj [("status", JStr "OK"); ("results", JNull)]))
    [ "Status: OK"; "Request ID: None"; str_mul "-" 80 ]
    (Raise (TypeError "object of type 'NoneType' has no len()")).
Proof.
  apply (unsized_results_raise [("status", JStr "OK"); ("results", JNull)] JNull);
    reflexivity.
Defined.

(** X8. The render stops at the first contract whose block raises: the
    header and the complete blocks of the contracts before it are printed,
    then what that block printed before it raised; the contracts after it
    are not rendered, and the error is that block's. The total in the
    header still counts all of [results]. *)
Theorem render_stops_at_first_failure
    (d : list (string * json)) (good rest : list json) (bad : json) partial e :
  dict_lookup "results" d = Some (JArr (good ++ bad :: rest)) ->
  Forall (fun c => block_total c = true) good ->
  writes (print_options_chain_body bad) partial (Raise e) ->
  writes (print_options_chain (JObj d))
         (header_lines d ++ concat (map block_lines good) ++ partial) (Raise e).
Proof.
  intros Hres Hgood Hbad.
  assert (results_of d = good ++ bad :: rest) as Hcs
    by (unfold results_of; by rewrite Hres).
  unfold header_lines. rewrite Hcs.
  apply (render_run d (length (good ++ bad :: rest)) (good ++ bad :: rest)).
  - by rewrite Hres.
  - by rewrite Hres.
  - apply writes_for_each_stop; [|done].
    eapply Forall_impl; [exact Hgood|].
    intros [] Hc; try discriminate Hc. by apply body_writes_total.
Qed.

Lemma render_stops_at_first_failure_witness :
  writes (print_options_chain
            (JObj (response_of [JObj bare_put; JObj null_type; JObj full_call])))
    ([ "Status: OK"; "Request ID: abc"; str_mul "-" 80;
       "Total contracts returned: 3" +:+ newline ]
     ++ block_lines (JObj bare_put) ++ [ "Contract: N/A" ])
    (Raise (no_attribute JNull "upper")).
Proof.
  apply (render_stops_at_first_failure
           (response_of [JObj bare_put; JObj null_type; JObj full_call])
           [JObj bare_put] [JObj full_call] (JObj null_type)
           [ "Contract: N/A" ] (no_attribute JNull "upper")).
  - reflexivity.
  - repeat constructor.
  - unfold print_options_chain_body, NA. run_with ltac:(reflexivity).
Defined.

Lemma render_raise_kind (data : json) out e :
  writes (print_options_chain data) out (Raise e) -> attr_or_type e = true.
Proof.
  intros H.
  destruct (render_total_cases data) as [[_ (o & a & Hok)]|(_ & o & e' & Hr & Hk)].
  - destruct (writes_fun _ _ _ _ _ H Hok) as [_ ?]. discriminate.
  - destruct (writes_fun _ _ _ _ _ H Hr) as [_ [= ->]]. done.
Qed.



Lemma body_depends_on_keys (c c' : list (string * json)) :
  (forall k, k ∈ contract_keys -> dict_lookup k c = dict_lookup k c') ->
  print_options_chain_body (JObj c) = print_options_chain_body (JObj c').
Proof.
  intros H. unfold print_options_chain_body. cbn [py_get].
  rewrite (H "details"), (H "greeks"), (H "last_quote"), (H "last_trade"),
    (H "implied_volatility"), (H "open_interest");
    [reflexivity|..]; unfold contract_keys;
    repeat first [apply list_elem_of_here | apply list_elem_of_further].
Qed.

(** X10. The block of a contract depends on nothing but what the
    contract binds to [details], [greeks], [last_quote], [last_trade],
    [implied_volatility] and [open_interest]: two contracts that agree on
    these keys are rendered by the same computation, so fields under other
    keys are ignored. *)
Theorem unknown_fields_ignored (c c' : list (string * json)) :
  (forall k, k ∈ contract_keys -> dict_lookup k c = dict_lookup k c') ->
  print_options_chain_body (JObj c) = print_options_chain_body (JObj c').
Proof. apply body_depends_on_keys. Qed.

Lemma unknown_fields_ignored_witness :
  print_options_chain_body (JObj bare_put_extra) = print_options_chain_body (JObj bare_put).
Proof.
  apply (unknown_fields_ignored bare_put_extra bare_put).
  intros k Hk. unfold bare_put_extra. cbn [dict_lookup].
  destruct (String.eqb_spec k "day") as [->|]; [|reflexivity].
  unfold contract_keys in Hk.
  repeat (apply elem_of_cons in Hk as [Hk|Hk]; [discriminate Hk|]).
  by apply elem_of_nil in Hk.
Defined.

Lemma dict_lookup_perm (k : string) (c c' : list (string * json)) :
  NoDup c.*1 -> c ≡ₚ c' -> dict_lookup k c = dict_lookup k c'.
Proof.
  intros Hnd Hp. induction Hp as [|[k1 v1] l l' Hp IH|[k1 v1] [k2 v2] l|l l' l'' Hp1 IH1 Hp2 IH2].
  - done.
  - simpl. apply NoDup_cons in Hnd as [_ Hnd]. by rewrite IH.
  - simpl. destruct (String.eqb_spec k k2) as [->|]; [|done].
    destruct (String.eqb_spec k2 k1) as [->|]; [|done].
    simpl in Hnd. apply NoDup_cons in Hnd as [Hnd _].
    destruct Hnd. apply list_elem_of_here.
  - rewrite IH1 by done. apply IH2. by rewrite <- Hp1.
Qed.

(** X11. The order of the fields of a contract (one without a repeated
    key, as a parsed document is) does not matter to its block. *)
Theorem field_order_irrelevant (c c' : list (string * json)) :
  NoDup c.*1 -> c ≡ₚ c' ->
  print_options_chain_body (JObj c) = print_options_chain_body (JObj c').
Proof.
  intros Hnd Hp. apply body_depends_on_keys. intros k _. by apply dict_lookup_perm.
Qed.

Lemma field_order_irrelevant_witness :
  print_options_chain_body (JObj full_call)
  = print_options_chain_body (JObj full_call_reversed).
Proof.
  apply (field_order_irrelevant full_call full_call_reversed).
  - compute_done.
  - apply Permutation_rev.
Defined.

(** X12. In a block that completes, the [Last Quote:] line is there
    exactly when the value of [last_quote] (an empty mapping when the key
    is absent) is true, and likewise [Last Trade:]: [null], 0, an empty
    string or an empty list give no line, like an empty mapping. *)
Theorem quote_line_iff_truthy (c : list (string * json)) :
  block_total (JObj c) = true ->
  exists out,
    writes (print_options_chain_body (JObj c)) out (Ok tt)
    /\ has_line "  Last Quote:" out
       = py_truthy (default (JObj []) (dict_lookup "last_quote" c))
    /\ has_line "  Last Trade:" out
       = py_truthy (default (JObj []) (dict_lookup "last_trade" c)).
Proof.
  intros H. exists (block_lines (JObj c)). split; [by apply body_writes_total|].
  unfold block_total in H. rewrite !andb_true_iff in H.
  destruct H as [[[[_ _] _] Hq] Ht].
  destruct (fixed_no_quote_trade c) as [Fq Ft].
  unfold block_lines, quote_lines, trade_lines.
  rewrite !has_line_app, Fq, Ft.
  destruct (quote_cases c "last_quote" Hq) as [[-> ->]|(q0 & q & -> & ->)];
    destruct (quote_cases c "last_trade" Ht) as [[-> ->]|(t0 & t & -> & ->)];
    split; reflexivity.
Qed.

Lemma quote_line_iff_truthy_witness :
  exists out,
    writes (print_options_chain_body (JObj null_quote)) out (Ok tt)
    /\ has_line "  Last Quote:" out = false
    /\ has_line "  Last Trade:" out = false.
Proof. apply (quote_line_iff_truthy null_quote). reflexivity. Defined.

(** * Further properties of the snapshot client *)

(** The world a call of the client leaves. *)
Lemma snapshot_world (u : string) (kw : gmap string json) (w : world) :
  (get_options_chain_snapshot u kw w).2 = issue (snapshot_request w u kw) w.
Proof.
  rewrite snapshot_run. cbv zeta.
  destruct (upstream w _) as [msg|r]; [done|].
  destruct (is_error_status (status_code r)); [done|].
  by destruct (parsed r).
Qed.

(** X13. A failure of the transport (no connection, an invalid URL) is
    not caught by the client: the call raises it as it is. *)
Theorem transport_failure_propagates
    (u : string) (kw : gmap string json) (w : world) (msg : string) :
  upstream w (snapshot_request w u kw) = inl msg ->
  (get_options_chain_snapshot u kw w).1 = Raise (RequestException msg).
Proof. intros H. rewrite snapshot_run. cbv zeta. by rewrite H. Qed.

Lemma transport_failure_propagates_witness :
  (get_options_chain_snapshot "AAPL" limit_10 offline_world).1
  = Raise (RequestException "Connection refused").
Proof.
  apply (transport_failure_propagates "AAPL" limit_10 offline_world). reflexivity.
Defined.

(** X14. When the status is no error status and the body does not parse,
    the call raises the decode error. *)
Theorem decode_failure_raises
    (u : string) (kw : gmap string json) (w : world) (r : http_response) (msg : string) :
  upstream w (snapshot_request w u kw) = inr r ->
  ~ 400 <= status_code r < 600 ->
  parsed r = inl msg ->
  (get_options_chain_snapshot u kw w).1 = Raise (JSONDecodeError msg).
Proof.
  intros Hup Hst Hp. rewrite snapshot_run. cbv zeta. rewrite Hup.
  destruct (is_error_status (status_code r)) eqn:E.
  - by apply error_status_range in E.
  - by rewrite Hp.
Qed.

Lemma decode_failure_raises_witness :
  (get_options_chain_snapshot "AAPL" limit_10 (example_world garbled)).1
  = Raise (JSONDecodeError "Expecting value: line 1 column 1 (char 0)").
Proof.
  apply (decode_failure_raises "AAPL" limit_10 (example_world garbled) garbled).
  - reflexivity.
  - simpl. lia.
  - reflexivity.
Defined.



(** X16. The client prints nothing and leaves the key, the base URL and
    the upstream as they are, whatever the outcome of the call. *)
Theorem snapshot_leaves_world (u : string) (kw : gmap string json) (w : world) :
  stdout (get_options_chain_snapshot u kw w).2 = stdout w
  /\ API_KEY (get_options_chain_snapshot u kw w).2 = API_KEY w
  /\ BASE_URL (get_options_chain_snapshot u kw w).2 = BASE_URL w
  /\ upstream (get_options_chain_snapshot u kw w).2 = upstream w.
Proof. by rewrite snapshot_world. Qed.

(** X17. The query parameters of the request are the filters and
    [apiKey], and no other. *)
Theorem snapshot_params_domain (u : string) (kw : gmap string json) (w : world) :
  exists req,
    sent (get_options_chain_snapshot u kw w).2 = sent w ++ [req]
    /\ dom (req_params req) = dom kw ∪ {[ "apiKey" ]}.
Proof.
  exists (snapshot_request w u kw). split; [apply snapshot_sent|].
  unfold snapshot_request, dict_update; simpl.
  by rewrite dom_union_L, dom_singleton_L.
Qed.

(** X18. A missing configuration is not detected: with no key and no
    base URL in the environment the request is issued all the same, to a
    URL that starts with the text [None] and with [apiKey] bound to
    [None]. *)
Theorem unset_config_still_requests (u : string) (kw : gmap string json) (w : world) :
  BASE_URL w = None ->
  API_KEY w = None ->
  kw !! "apiKey" = None ->
  exists req,
    sent (get_options_chain_snapshot u kw w).2 = sent w ++ [req]
    /\ req_url req = "None/snapshot/options/" +:+ u
    /\ req_params req !! "apiKey" = Some JNull.
Proof.
  intros Hb Hk Hkw. exists (snapshot_request w u kw). split; [apply snapshot_sent|].
  unfold snapshot_request, dict_update; simpl. rewrite Hb, Hk. split; [done|].
  rewrite lookup_union_r by done. by rewrite lookup_singleton_eq.
Qed.

Lemma unset_config_still_requests_witness :
  exists req,
    sent (get_options_chain_snapshot "AAPL" limit_10 unconfigured_world).2
      = sent unconfigured_world ++ [req]
    /\ req_url req = "None/snapshot/options/" +:+ "AAPL"
    /\ req_params req !! "apiKey" = Some JNull.
Proof.
  apply (unset_config_still_requests "AAPL" limit_10 unconfigured_world);
    reflexivity.
Defined.

(** X19. Nothing is cached: a second call with the same arguments issues
    the same request once more. *)
Theorem second_call_requests_again (u : string) (kw : gmap string json) (w : world) :
  exists req,
    sent (get_options_chain_snapshot u kw w).2 = sent w ++ [req]
    /\ sent (get_options_chain_snapshot u kw (get_options_chain_snapshot u kw w).2).2
       = sent w ++ [req; req].
Proof.
  exists (snapshot_request w u kw). split; [apply snapshot_sent|].
  rewrite snapshot_sent, snapshot_world. cbn [sent issue].
  by rewrite <- app_assoc.
Qed.

(** * Properties of the driver *)

(** What an exception handler of the driver does. *)
Lemma handler_report (e : exn) (w : world) :
  match e with
  | HTTPError _ response =>
      bind (print ("HTTP Error: " +:+ exn_str e))
           (fun _ => print ("Response: " +:+ text response))
  | _ => print ("Error: " +:+ exn_str e)
  end w = (Ok tt, emit (report e) w).
Proof. destruct e; unfold bind, print; simpl; by rewrite ?emit_emit. Qed.

(** A run of the driver: the banner, then what its one call and the
    render give. *)
Lemma main_cases (w : world) :
  exists out,
    main w = (Ok tt, emit (banner ++ out) (issue (snapshot_request w "AAPL" limit_10) w))
    /\ match (get_options_chain_snapshot "AAPL" limit_10 w).1 with
       | Raise e => out = report e
       | Ok data =>
           forall o r, writes (print_options_chain data) o r ->
             out = o ++ match r with
                        | Ok _ => raw_section data
                        | Raise e => report e
                        end
       end.
Proof.
  unfold main, try_except. unfold bind at 1 2, print at 1 2.
  rewrite !emit_emit. change (_ ++ [str_mul "=" 80]) with banner.
  unfold bind at 1. rewrite snapshot_emit.
  pose proof (snapshot_world "AAPL" limit_10 w) as Hw. unfold limit_10 in *.
  destruct (get_options_chain_snapshot "AAPL" {[ "limit" := JInt 10 ]} w)
    as [[data|e] w1]; cbn [fst snd] in *; subst w1.
  - destruct (render_output_only data) as (o & r & Ho).
    unfold bind at 1. rewrite (Ho _). destruct r as [[]|e].
    + exists (o ++ raw_section data). split.
      * unfold bind, print. rewrite !emit_emit, <- ?app_assoc. reflexivity.
      * intros o' r' H'. by destruct (writes_fun _ _ _ _ _ Ho H') as [-> <-].
    + exists (o ++ report e). split.
      * rewrite handler_report, !emit_emit, <- ?app_assoc. reflexivity.
      * intros o' r' H'. by destruct (writes_fun _ _ _ _ _ Ho H') as [-> <-].
  - exists (report e). split; [|done].
    by rewrite handler_report, !emit_emit.
Qed.

Lemma main_printed (w : world) out :
  main w = (Ok tt, emit (banner ++ out) (issue (snapshot_request w "AAPL" limit_10) w)) ->
  printed main w = banner ++ out.
Proof. intros H. apply printed_app. by rewrite H. Qed.

(** X20. The driver never ends with an exception: whatever the upstream
    answers and whatever the document holds, every error ends in one of
    its two handlers. *)
Theorem main_never_raises (w : world) : (main w).1 = Ok tt.
Proof. destruct (main_cases w) as (out & -> & _). done. Qed.

(** X21. Every run of the driver issues exactly one request, whatever
    comes of it: for [AAPL], with the parameters [limit], bound to 10, and
    [apiKey], bound to the configured key, and no other. *)
Theorem main_one_request (w : world) :
  exists req,
    sent (main w).2 = sent w ++ [req]
    /\ req_url req = env_str (BASE_URL w) +:+ "/snapshot/options/AAPL"
    /\ req_params req !! "limit" = Some (JInt 10)
    /\ req_params req !! "apiKey" = Some (env_val (API_KEY w))
    /\ dom (req_params req) = {[ "limit" ]} ∪ {[ "apiKey" ]}.
Proof.
  destruct (main_cases w) as (out & -> & _).
  exists (snapshot_request w "AAPL" limit_10). split; [done|]. split; [done|].
  unfold snapshot_request, dict_update, limit_10; simpl.
  split; [by apply lookup_union_Some_l, lookup_singleton_eq|].
  split; [|by rewrite dom_union_L, !dom_singleton_L].
  rewrite lookup_union_r by by apply lookup_singleton_ne.
  by rewrite lookup_singleton_eq.
Qed.

(** X22. When the call returns a document that renders to the end, the
    driver prints its banner, the render, and then the separator, the line
    [Raw JSON Response:], the separator and the document as
    [json.dumps] writes it with an indent of 2. *)
Theorem main_success_layout (w : world) (d : list (string * json)) :
  (get_options_chain_snapshot "AAPL" limit_10 w).1 = Ok (JObj d) ->
  render_total (JObj d) = true ->
  printed main w =
    banner ++ (header_lines d ++ concat (map block_lines (results_of d)))
           ++ [ str_mul "=" 80; "Raw JSON Response:"; str_mul "=" 80;
                json_dumps (JObj d) 2 ].
Proof.
  intros Hcall Htot. destruct (main_cases w) as (out & Hmain & Hout).
  rewrite Hcall in Hout.
  rewrite (main_printed w out Hmain), (Hout _ _ (render_writes_total d Htot)).
  done.
Qed.

Lemma main_success_layout_witness :
  printed main (example_world (ok_response empty_results)) =
    banner ++ ([ "Status: OK"; "Request ID: x"; str_mul "-" 80;
                 "Total contracts returned: 0" +:+ newline ] ++ [])
           ++ [ str_mul "=" 80; "Raw JSON Response:"; str_mul "=" 80;
                json_dumps empty_results 2 ].
Proof.
  apply (main_success_layout (example_world (ok_response empty_results))
           [("status", JStr "OK"); ("request_id", JStr "x"); ("results", JArr [])]);
    reflexivity.
Defined.

(** X23. When the call raises anything but an [HTTPError] (a transport
    failure, a body that does not parse), the driver prints the banner and
    one line [Error: ] with the error's text, and nothing else. *)
Theorem main_reports_client_failure (w : world) (e : exn) :
  (get_options_chain_snapshot "AAPL" limit_10 w).1 = Raise e ->
  (forall msg response, e <> HTTPError msg response) ->
  printed main w = banner ++ [ "Error: " +:+ exn_str e ].
Proof.
  intros Hcall He. destruct (main_cases w) as (out & Hmain & Hout).
  rewrite Hcall in Hout. rewrite (main_printed w out Hmain), Hout.
  destruct e; try reflexivity. by destruct (He msg response).
Qed.

Lemma main_reports_client_failure_witness :
  printed main offline_world = banner ++ [ "Error: Connection refused" ].
Proof.
  apply (main_reports_client_failure offline_world (RequestException "Connection refused")).
  - reflexivity.
  - discriminate.
Defined.

(** X24. When the call returns a document and the render raises, the
    driver has printed the banner and what the render printed up to the
    error; it then prints one line [Error: ] with the error's text, and
    no raw JSON section. *)
Theorem main_reports_render_failure (w : world) (data : json) out e :
  (get_options_chain_snapshot "AAPL" limit_10 w).1 = Ok data ->
  writes (print_options_chain data) out (Raise e) ->
  printed main w = banner ++ out ++ [ "Error: " +:+ exn_str e ].
Proof.
  intros Hcall Hrender. destruct (main_cases w) as (o & Hmain & Hout).
  rewrite Hcall in Hout. rewrite (main_printed w o Hmain), (Hout _ _ Hrender).
  pose proof (render_raise_kind data out e Hrender) as Hk.
  by destruct e.
Qed.

Lemma main_reports_render_failure_witness :
  printed main (example_world (ok_response (JArr []))) =
    banner ++ [] ++ [ "Error: 'list' object has no attribute 'get'" ].
Proof.
  apply (main_reports_render_failure (example_world (ok_response (JArr [])))
           (JArr []) [] (no_attribute (JArr []) "get")).
  - reflexivity.
  - unfold print_options_chain. run_with ltac:(reflexivity).
Defined.
